(** * SignTracker: the document approval / signature workflow

    A shallow embedding of the client-side workflow handlers of the
    SignTracker application and the properties of its document lifecycle.

    Source files embedded here:
    - [isAdminCode], [signUp]            (lib/supabase.ts, first revision)
    - [createDocumentSchema], [onSubmit] (pages/CreateDocument.tsx)
    - [handleApproval], [onApprove], [onReject] (pages/AdminApprovals.tsx)
    - [updateSignerStatus]               (pages/DocumentDetails.tsx)
    - the row types of types/index.ts

    The hosted database is modelled as a record of tables (lists of rows).
    Every request of the client is executed on the whole table; a request
    that the backend answers with [{ error }] is described by the [Faults]
    argument of the handler and leaves the tables as they are.  Row-level
    policies configured in the database are not part of the client code and
    are not modelled. *)

From Stdlib Require Import List String Bool Arith PeanoNat Lia Permutation.
Import ListNotations.
Local Open Scope string_scope.
Local Open Scope list_scope.

Infix "^^" := String.append (at level 60, right associativity).

(** ** Primitive data *)

(** Row ids are UUID strings generated by the database
    ([gen_random_uuid()]); they are modelled by naturals so that the store can
    hand out fresh ones. *)
Definition uuid := nat.

(** [new Date().toISOString()] *)
Definition timestamp := string.

(** The [message] of an error object returned by the backend. *)
Definition error := string.

(** JavaScript [a || b] on strings: the empty string is falsy. *)
Definition or_else (a b : string) : string :=
  if String.eqb a "" then b else a.

(** [comments || updateMessage] where [comments?: string] may be undefined. *)
Definition opt_or_else (a : option string) (b : string) : string :=
  match a with
  | Some s => or_else s b
  | None => b
  end.

(** [Array.prototype.map] with the [(value, index)] callback. *)
Fixpoint mapi_from {A B : Type} (f : A -> nat -> B) (i : nat) (l : list A) : list B :=
  match l with
  | [] => []
  | x :: l' => f x i :: mapi_from f (S i) l'
  end.

Definition mapi {A B : Type} (f : A -> nat -> B) (l : list A) : list B :=
  mapi_from f 0 l.

(** ** The literal unions of types/index.ts *)

Module DocumentStatus.
Inductive t := draft | pending_approval | approved | rejected | in_progress | completed.
Definition eqb (a b : t) : bool :=
  match a, b with
  | draft, draft | pending_approval, pending_approval | approved, approved
  | rejected, rejected | in_progress, in_progress | completed, completed => true
  | _, _ => false
  end.
End DocumentStatus.

Module ApprovalStatus.
Inductive t := pending | approved | rejected.
Definition eqb (a b : t) : bool :=
  match a, b with
  | pending, pending | approved, approved | rejected, rejected => true
  | _, _ => false
  end.
End ApprovalStatus.

Module SigningStatus.
Inductive t := pending | signed | rejected.
Definition eqb (a b : t) : bool :=
  match a, b with
  | pending, pending | signed, signed | rejected, rejected => true
  | _, _ => false
  end.
End SigningStatus.

Module UpdateType.
Inductive t :=
  created | approved | rejected | signing_started | signature_received
| completed | general_update.
End UpdateType.

(** The parameter type ['approved' | 'rejected'] of [handleApproval]. *)
Module Decision.
Inductive t := approved | rejected.
Definition to_status (d : t) : ApprovalStatus.t :=
  match d with
  | approved => ApprovalStatus.approved
  | rejected => ApprovalStatus.rejected
  end.
Definition to_update_type (d : t) : UpdateType.t :=
  match d with
  | approved => UpdateType.approved
  | rejected => UpdateType.rejected
  end.
Definition to_string (d : t) : string :=
  match d with
  | approved => "approved"
  | rejected => "rejected"
  end.
Definition is_rejected (d : t) : bool :=
  match d with
  | rejected => true
  | approved => false
  end.
End Decision.

(** The parameter type ['signed' | 'rejected'] of [updateSignerStatus]. *)
Module Outcome.
Inductive t := signed | rejected.
Definition to_status (o : t) : SigningStatus.t :=
  match o with
  | signed => SigningStatus.signed
  | rejected => SigningStatus.rejected
  end.
Definition to_string (o : t) : string :=
  match o with
  | signed => "signed"
  | rejected => "rejected"
  end.
End Outcome.

(** ** Rows (types/index.ts).  The columns [created_at] and [updated_at] are
    filled by database defaults and never written by the client; they are
    left out. *)

Module User.
Record t := mk {
  id : uuid;
  email : string;
  employee_code : string;
  full_name : string;
  is_admin : bool
}.
End User.

Module Document.
Record t := mk {
  id : uuid;
  title : string;
  description : string;
  document_url : string;
  created_by : uuid;
  status : DocumentStatus.t
}.
Definition with_status (s : DocumentStatus.t) (d : t) : t :=
  mk (id d) (title d) (description d) (document_url d) (created_by d) s.
End Document.

Module Approver.
Record t := mk {
  id : uuid;
  document_id : uuid;
  user_id : uuid;
  order : nat;
  status : ApprovalStatus.t;
  comments : option string;
  approved_at : option timestamp
}.
End Approver.

Module ExternalSigner.
Record t := mk {
  id : uuid;
  document_id : uuid;
  name : string;
  designation : string;
  order : nat;
  status : SigningStatus.t;
  signed_at : option timestamp;
  comments : option string
}.
(** [{ ...s, status }] *)
Definition with_status (st : SigningStatus.t) (s : t) : t :=
  mk (id s) (document_id s) (name s) (designation s) (order s) st
     (signed_at s) (comments s).
End ExternalSigner.

Module StatusUpdate.
Record t := mk {
  id : uuid;
  document_id : uuid;
  updated_by : uuid;
  update_type : UpdateType.t;
  message : string
}.
End StatusUpdate.

(** ** The database *)

Module DB.
Record t := mk {
  users : list User.t;
  documents : list Document.t;
  approvers : list Approver.t;
  external_signers : list ExternalSigner.t;
  status_updates : list StatusUpdate.t;
  (** objects of the storage bucket, as (bucket, path) *)
  storage : list (string * string);
  (** the next id [gen_random_uuid()] hands out *)
  next_uuid : uuid
}.
Definition empty : t := mk [] [] [] [] [] [] 0.
Definition with_users (v : list User.t) (db : t) : t :=
  mk v (documents db) (approvers db) (external_signers db) (status_updates db)
     (storage db) (next_uuid db).
Definition with_documents (v : list Document.t) (db : t) : t :=
  mk (users db) v (approvers db) (external_signers db) (status_updates db)
     (storage db) (next_uuid db).
Definition with_approvers (v : list Approver.t) (db : t) : t :=
  mk (users db) (documents db) v (external_signers db) (status_updates db)
     (storage db) (next_uuid db).
Definition with_external_signers (v : list ExternalSigner.t) (db : t) : t :=
  mk (users db) (documents db) (approvers db) v (status_updates db)
     (storage db) (next_uuid db).
Definition with_status_updates (v : list StatusUpdate.t) (db : t) : t :=
  mk (users db) (documents db) (approvers db) (external_signers db) v
     (storage db) (next_uuid db).
Definition with_storage (v : list (string * string)) (db : t) : t :=
  mk (users db) (documents db) (approvers db) (external_signers db)
     (status_updates db) v (next_uuid db).
(** [n] fresh ids have been handed out. *)
Definition bump (n : nat) (db : t) : t :=
  mk (users db) (documents db) (approvers db) (external_signers db)
     (status_updates db) (storage db) (next_uuid db + n).
End DB.

(** ** Requests and asynchronous handlers

    A request resolves to [{ data, error }] ([Response]); the handlers turn
    an error into an exception with [if (error) throw error] ([unwrap]) or
    ignore the response.  A handler is a state transformer on the database
    that either returns or throws; what was written before a throw stays
    written. *)

Inductive Response (A : Type) : Type :=
| ok (data : A)
| failed (e : error).
Arguments ok {A} data.
Arguments failed {A} e.

Inductive Completion (A : Type) : Type :=
| returned (a : A)
| thrown (e : error).
Arguments returned {A} a.
Arguments thrown {A} e.

Definition Async (A : Type) : Type := DB.t -> DB.t * Completion A.

Definition ret {A : Type} (a : A) : Async A := fun db => (db, returned a).

Definition throw {A : Type} (e : error) : Async A := fun db => (db, thrown e).

Definition bind {A B : Type} (m : Async A) (k : A -> Async B) : Async B :=
  fun db =>
    match m db with
    | (db', returned a) => k a db'
    | (db', thrown e) => (db', thrown e)
    end.

Notation "x <- m ;; k" := (bind m (fun x => k))
  (at level 61, m at next level, right associativity).
Notation "m ;;; k" := (bind m (fun _ => k))
  (at level 61, right associativity).

(** [try { body } catch (error) { handler }]; the catch blocks of the
    handlers only log and show a toast, so the whole statement is total. *)
Definition try_catch {A : Type} (body : Async A) (handler : error -> A)
  : DB.t -> DB.t * A :=
  fun db =>
    match body db with
    | (db', returned a) => (db', a)
    | (db', thrown e) => (db', handler e)
    end.

(** [if (error) throw error] *)
Definition unwrap {A : Type} (r : Response A) : Async A :=
  match r with
  | ok a => ret a
  | failed e => throw e
  end.

(** Which requests of a handler call the backend answers with an error
    ([Some message]); one entry per table and verb, since no handler issues
    the same request twice. *)
Module Faults.
Record t := mk {
  storage_upload : option error;
  users_insert : option error;
  documents_insert : option error;
  documents_update : option error;
  approvers_insert : option error;
  approvers_update : option error;
  approvers_select : option error;
  external_signers_insert : option error;
  external_signers_update : option error;
  status_updates_insert : option error
}.
Definition none : t := mk None None None None None None None None None None.
End Faults.

Definition request {A : Type} (fault : option error) (exec : DB.t -> DB.t * A)
  : Async (Response A) :=
  fun db =>
    match fault with
    | Some e => (db, returned (failed e))
    | None => let (db', a) := exec db in (db', returned (ok a))
    end.

(** ** The query builder: [supabase.from(table).insert/update/select] *)

(** [.update(patch).eq(column, value)]: every row matching the filter. *)
Definition update_where {R : Type} (matches : R -> bool) (patch : R -> R)
  (rows : list R) : list R :=
  map (fun r => if matches r then patch r else r) rows.

(** Rows to insert wait for the id the database generates. *)
Definition assign_ids {R : Type} (next : uuid) (records : list (uuid -> R)) : list R :=
  mapi (fun record i => record (next + i)) records.

Definition users_insert (f : Faults.t) (row : User.t) : Async (Response unit) :=
  request (Faults.users_insert f)
    (fun db => (DB.with_users (DB.users db ++ [row]) db, tt)).

(** [.insert(row).select().single()] answers with the created row. *)
Definition documents_insert (f : Faults.t) (record : uuid -> Document.t)
  : Async (Response Document.t) :=
  request (Faults.documents_insert f)
    (fun db =>
       let row := record (DB.next_uuid db) in
       (DB.bump 1 (DB.with_documents (DB.documents db ++ [row]) db), row)).

Definition documents_update (f : Faults.t) (matches : Document.t -> bool)
  (patch : Document.t -> Document.t) : Async (Response unit) :=
  request (Faults.documents_update f)
    (fun db =>
       (DB.with_documents (update_where matches patch (DB.documents db)) db, tt)).

Definition approvers_insert (f : Faults.t) (records : list (uuid -> Approver.t))
  : Async (Response unit) :=
  request (Faults.approvers_insert f)
    (fun db =>
       let rows := assign_ids (DB.next_uuid db) records in
       (DB.bump (List.length records)
          (DB.with_approvers (DB.approvers db ++ rows) db), tt)).

Definition approvers_update (f : Faults.t) (matches : Approver.t -> bool)
  (patch : Approver.t -> Approver.t) : Async (Response unit) :=
  request (Faults.approvers_update f)
    (fun db =>
       (DB.with_approvers (update_where matches patch (DB.approvers db)) db, tt)).

(** [.select('status').eq('document_id', documentId)] *)
Definition approvers_select_status (f : Faults.t) (documentId : uuid)
  : Async (Response (list ApprovalStatus.t)) :=
  request (Faults.approvers_select f)
    (fun db =>
       (db, map Approver.status
              (filter (fun a => Nat.eqb (Approver.document_id a) documentId)
                      (DB.approvers db)))).

Definition external_signers_insert (f : Faults.t)
  (records : list (uuid -> ExternalSigner.t)) : Async (Response unit) :=
  request (Faults.external_signers_insert f)
    (fun db =>
       let rows := assign_ids (DB.next_uuid db) records in
       (DB.bump (List.length records)
          (DB.with_external_signers (DB.external_signers db ++ rows) db), tt)).

Definition external_signers_update (f : Faults.t)
  (matches : ExternalSigner.t -> bool)
  (patch : ExternalSigner.t -> ExternalSigner.t) : Async (Response unit) :=
  request (Faults.external_signers_update f)
    (fun db =>
       (DB.with_external_signers
          (update_where matches patch (DB.external_signers db)) db, tt)).

Definition status_updates_insert (f : Faults.t) (record : uuid -> StatusUpdate.t)
  : Async (Response unit) :=
  request (Faults.status_updates_insert f)
    (fun db =>
       let row := record (DB.next_uuid db) in
       (DB.bump 1 (DB.with_status_updates (DB.status_updates db ++ [row]) db), tt)).

(** ** lib/supabase.ts *)

(** What the handlers read from their surroundings: the clock and the public
    URL the storage service assigns to a path. *)
Module Env.
Record t := mk {
  now_iso : timestamp;
  now_ms : string;
  public_url : string -> string -> string
}.
End Env.

Definition isAdminCode (employeeCode : string) : bool :=
  let adminCodes := ["0001"; "0002"; "0003"; "0004"] in
  existsb (String.eqb employeeCode) adminCodes.

Definition uploadFile (f : Faults.t) (bucket path : string) : Async unit :=
  r <- request (Faults.storage_upload f)
         (fun db => (DB.with_storage (DB.storage db ++ [(bucket, path)]) db, tt)) ;;
  unwrap r.

Definition getFileUrl (env : Env.t) (bucket path : string) : string :=
  Env.public_url env bucket path.

(** [data] of [supabase.auth.signUp]: the created auth user, if any. *)
Module AuthData.
Record t := mk { user : option uuid }.
End AuthData.

(** [signUp]; [auth] is the answer of the identity provider to
    [supabase.auth.signUp]. *)
Definition signUp (f : Faults.t) (auth : Response AuthData.t)
  (email password employeeCode fullName : string) : Async AuthData.t :=
  let isAdmin := isAdminCode employeeCode in
  data <- unwrap auth ;;
  match AuthData.user data with
  | Some uid =>
      r <- users_insert f (User.mk uid email employeeCode fullName isAdmin) ;;
      unwrap r ;;;
      ret data
  | None => ret data
  end.

(** ** What a handler shows to the user *)

Inductive PathSegment := key (k : string) | index (i : nat).

Inductive UiEvent :=
| toast_success (m : string)
| toast_error (m : string)
| navigate_document (id : uuid)      (* navigate(`/document/${id}`) *)
| form_errors (issues : list (list PathSegment * string)).

(** ** pages/CreateDocument.tsx *)

Module SignerEntry.
Record t := mk { name : string; designation : string }.
End SignerEntry.

Module CreateDocumentFormData.
Record t := mk {
  title : string;
  description : string;
  approvers : list uuid;
  external_signers : list SignerEntry.t
}.
End CreateDocumentFormData.

Module File.
Record t := mk { name : string; type : string; size : nat }.
End File.

Definition Issue : Type := list PathSegment * string.

(** The [.length] of a JavaScript string, its number of UTF-16 code units.
    The model's strings hold the UTF-8 encoding of the text: a byte
    [10xxxxxx] continues a character and adds nothing, a lead byte
    [11110xxx] starts a character outside the basic plane (two code units),
    every other byte starts a character of one code unit. *)
Fixpoint js_length (s : string) : nat :=
  match s with
  | EmptyString => 0
  | String (Ascii.Ascii _ _ _ b3 b4 b5 b6 b7) s' =>
      (if b7 && negb b6 then 0
       else if b7 && b6 && b5 && b4 && negb b3 then 2
       else 1)
      + js_length s'
  end.

(** [z.string().min(n, message)]: zod compares the [.length] of the input. *)
Definition string_min (n : nat) (message : string) (path : list PathSegment)
  (s : string) : list Issue :=
  if Nat.ltb (js_length s) n then [(path, message)] else [].

(** [z.array(...).min(n, message)], the length check only *)
Definition array_min {A : Type} (n : nat) (message : string)
  (path : list PathSegment) (l : list A) : list Issue :=
  if Nat.ltb (List.length l) n then [(path, message)] else [].

(** [createDocumentSchema]: the issues found in the form data; the data is
    accepted when there are none. *)
Definition createDocumentSchema (data : CreateDocumentFormData.t) : list Issue :=
  string_min 3 "Title must be at least 3 characters" [key "title"]
    (CreateDocumentFormData.title data)
  ++ string_min 10 "Description must be at least 10 characters" [key "description"]
       (CreateDocumentFormData.description data)
  ++ array_min 1 "At least one approver is required" [key "approvers"]
       (CreateDocumentFormData.approvers data)
  ++ array_min 1 "At least one external signer is required" [key "external_signers"]
       (CreateDocumentFormData.external_signers data)
  ++ List.concat
       (mapi
          (fun signer i =>
             string_min 2 "Name is required"
               [key "external_signers"; index i; key "name"]
               (SignerEntry.name signer)
             ++ string_min 2 "Designation is required"
                  [key "external_signers"; index i; key "designation"]
                  (SignerEntry.designation signer))
          (CreateDocumentFormData.external_signers data)).

(** [onSubmit]; [user] and [file] are the component's state. *)
Definition onSubmit (env : Env.t) (f : Faults.t) (user : User.t)
  (file : option File.t) (data : CreateDocumentFormData.t)
  : DB.t -> DB.t * list UiEvent :=
  match file with
  | None => fun db => (db, [toast_error "Please select a document file"])
  | Some file =>
      try_catch
        (let fileName := Env.now_ms env ^^ "_" ^^ File.name file in
         let filePath := "documents/" ^^ fileName in
         uploadFile f "documents" filePath ;;;
         let fileUrl := getFileUrl env "documents" filePath in
         (* Create document record *)
         r <- documents_insert f
                (fun id =>
                   Document.mk id (CreateDocumentFormData.title data)
                     (CreateDocumentFormData.description data) fileUrl
                     (User.id user) DocumentStatus.pending_approval) ;;
         document <- unwrap r ;;
         (* Create approver records *)
         let approverRecords :=
           mapi (fun approverId index => fun id =>
                   Approver.mk id (Document.id document) approverId (index + 1)
                     ApprovalStatus.pending None None)
                (CreateDocumentFormData.approvers data) in
         r <- approvers_insert f approverRecords ;;
         unwrap r ;;;
         (* Create external signer records *)
         let signerRecords :=
           mapi (fun signer index => fun id =>
                   ExternalSigner.mk id (Document.id document)
                     (SignerEntry.name signer) (SignerEntry.designation signer)
                     (index + 1) SigningStatus.pending None None)
                (CreateDocumentFormData.external_signers data) in
         r <- external_signers_insert f signerRecords ;;
         unwrap r ;;;
         (* Create status update; the response is not inspected *)
         status_updates_insert f
           (fun id =>
              StatusUpdate.mk id (Document.id document) (User.id user)
                UpdateType.created "Document created and submitted for approval") ;;;
         ret [toast_success "Document created successfully!";
              navigate_document (Document.id document)])
        (fun e => [toast_error (or_else e "Failed to create document")])
  end.

(** [handleSubmit(onSubmit)] of the form: the resolver runs the schema and
    [onSubmit] is only called on accepted data. *)
Definition handleSubmit (env : Env.t) (f : Faults.t) (user : User.t)
  (file : option File.t) (data : CreateDocumentFormData.t)
  : DB.t -> DB.t * list UiEvent :=
  match createDocumentSchema data with
  | [] => onSubmit env f user file data
  | issues => fun db => (db, [form_errors issues])
  end.

(** ** pages/AdminApprovals.tsx *)

(** The payload [{ status, comments, approved_at }] of the approver update,
    applied to a row; an undefined [comments] is not sent and leaves the
    column as it is. *)
Definition approver_patch (env : Env.t) (status : Decision.t)
  (comments : option string) (a : Approver.t) : Approver.t :=
  Approver.mk (Approver.id a) (Approver.document_id a)
    (Approver.user_id a) (Approver.order a)
    (Decision.to_status status)
    (match comments with
     | Some c => Some c
     | None => Approver.comments a
     end)
    (match status with
     | Decision.approved => Some (Env.now_iso env)
     | Decision.rejected => None
     end).

(** [handleApproval]; [user] is the signed-in user of the auth context. *)
Definition handleApproval (env : Env.t) (f : Faults.t) (user : User.t)
  (documentId approverId : uuid) (status : Decision.t) (comments : option string)
  : DB.t -> DB.t * list UiEvent :=
  try_catch
    ((* Update approver status *)
     r <- approvers_update f
            (fun a => Nat.eqb (Approver.id a) approverId)
            (approver_patch env status comments) ;;
     unwrap r ;;;
     (* Check if all approvers have responded *)
     r <- approvers_select_status f documentId ;;
     allApprovers <- unwrap r ;;
     let allApproved :=
       forallb (fun a => ApprovalStatus.eqb a ApprovalStatus.approved) allApprovers in
     let anyRejected :=
       existsb (fun a => ApprovalStatus.eqb a ApprovalStatus.rejected) allApprovers in
     let newDocumentStatus :=
       if anyRejected then DocumentStatus.rejected
       else if allApproved then DocumentStatus.approved
       else DocumentStatus.pending_approval in
     let updateMessage :=
       if anyRejected then "Document rejected by one or more approvers"
       else if allApproved
            then "Document approved by all approvers and ready for signing"
       else "Document " ^^ Decision.to_string status ^^ " by " ^^ User.full_name user in
     (* Update document status if all approvers responded *)
     (if negb (DocumentStatus.eqb newDocumentStatus DocumentStatus.pending_approval)
      then
        r <- documents_update f
               (fun d => Nat.eqb (Document.id d) documentId)
               (Document.with_status
                  (if DocumentStatus.eqb newDocumentStatus DocumentStatus.approved
                   then DocumentStatus.in_progress
                   else DocumentStatus.rejected)) ;;
        unwrap r
      else ret tt) ;;;
     (* Add status update; the response is not inspected *)
     status_updates_insert f
       (fun id =>
          StatusUpdate.mk id documentId (User.id user)
            (Decision.to_update_type status) (opt_or_else comments updateMessage)) ;;;
     ret [toast_success ("Document " ^^ Decision.to_string status ^^ " successfully")])
    (fun _ => [toast_error "Failed to update approval"]).

(** An entry of [pendingDocuments]: a document with the approver rows that
    came with it. *)
Module PendingDocument.
Record t := mk { document : Document.t; approvers : list Approver.t }.
End PendingDocument.

(** The [onApprove] / [onReject] callbacks handed to an approval card. *)
Definition onDecision (status : Decision.t) (env : Env.t) (f : Faults.t)
  (user : User.t) (document : PendingDocument.t) (comments : option string)
  : DB.t -> DB.t * list UiEvent :=
  match find (fun a => Nat.eqb (Approver.user_id a) (User.id user))
             (PendingDocument.approvers document) with
  | Some approver =>
      handleApproval env f user (Document.id (PendingDocument.document document))
        (Approver.id approver) status comments
  | None => fun db => (db, [])
  end.

Definition onApprove := onDecision Decision.approved.
Definition onReject := onDecision Decision.rejected.

(** ** pages/DocumentDetails.tsx *)

(** The payload [{ status, signed_at, comments }] of the signer update,
    applied to a row. *)
Definition signer_patch (env : Env.t) (status : Outcome.t) (updateMessage : string)
  (s : ExternalSigner.t) : ExternalSigner.t :=
  ExternalSigner.mk (ExternalSigner.id s) (ExternalSigner.document_id s)
    (ExternalSigner.name s) (ExternalSigner.designation s)
    (ExternalSigner.order s) (Outcome.to_status status)
    (match status with
     | Outcome.signed => Some (Env.now_iso env)
     | Outcome.rejected => None
     end)
    (Some updateMessage).

(** [updateSignerStatus]; [id] (the route parameter), [user], [signers] (the
    rows loaded by the last [fetchDocumentDetails]) and [updateMessage] are
    the component's state. *)
Definition updateSignerStatus (env : Env.t) (f : Faults.t) (id : uuid)
  (user : User.t) (signers : list ExternalSigner.t) (updateMessage : string)
  (signerId : uuid) (status : Outcome.t) : DB.t -> DB.t * list UiEvent :=
  try_catch
    (r <- external_signers_update f
            (fun s => Nat.eqb (ExternalSigner.id s) signerId)
            (signer_patch env status updateMessage) ;;
     unwrap r ;;;
     (* Add status update; the response is not inspected *)
     status_updates_insert f
       (fun uid =>
          StatusUpdate.mk uid id (User.id user)
            (match status with
             | Outcome.signed => UpdateType.signature_received
             | Outcome.rejected => UpdateType.rejected
             end)
            (or_else updateMessage ("Signature " ^^ Outcome.to_string status))) ;;;
     (* Check if all signers are done and update document status *)
     let updatedSigners :=
       map (fun s =>
              if Nat.eqb (ExternalSigner.id s) signerId
              then ExternalSigner.with_status (Outcome.to_status status) s
              else s)
           signers in
     let allSigned :=
       forallb (fun s => SigningStatus.eqb (ExternalSigner.status s) SigningStatus.signed)
               updatedSigners in
     let anyRejected :=
       existsb (fun s => SigningStatus.eqb (ExternalSigner.status s) SigningStatus.rejected)
               updatedSigners in
     (if allSigned then
        documents_update f (fun d => Nat.eqb (Document.id d) id)
          (Document.with_status DocumentStatus.completed) ;;;
        ret tt
      else if anyRejected then
        documents_update f (fun d => Nat.eqb (Document.id d) id)
          (Document.with_status DocumentStatus.rejected) ;;;
        ret tt
      else ret tt) ;;;
     ret [toast_success "Status updated successfully"])
    (fun _ => [toast_error "Failed to update status"]).

(** The signer rows [fetchDocumentDetails] loads for a document. *)
Definition fetch_signers (id : uuid) (db : DB.t) : list ExternalSigner.t :=
  filter (fun s => Nat.eqb (ExternalSigner.document_id s) id) (DB.external_signers db).

(** ** Observations on the database *)

Definition document_status (db : DB.t) (id : uuid) : option DocumentStatus.t :=
  option_map Document.status
    (find (fun d => Nat.eqb (Document.id d) id) (DB.documents db)).

Definition approver_rows (db : DB.t) (documentId : uuid) : list Approver.t :=
  filter (fun a => Nat.eqb (Approver.document_id a) documentId) (DB.approvers db).

Definition approver_statuses (db : DB.t) (documentId : uuid) : list ApprovalStatus.t :=
  map Approver.status (approver_rows db documentId).

Definition signer_statuses (db : DB.t) (documentId : uuid) : list SigningStatus.t :=
  map ExternalSigner.status (fetch_signers documentId db).

(** ** Sequences of approver decisions *)

(** One approver acting: who is signed in, which approver row is targeted,
    the decision and the comments typed. *)
Module Action.
Record t := mk {
  user : User.t;
  approverId : uuid;
  status : Decision.t;
  comments : option string
}.
End Action.

(** The decisions of [actions] recorded one after the other on document
    [documentId], every request being executed by the backend. *)
Definition run_decisions (env : Env.t) (documentId : uuid)
  (actions : list Action.t) (db : DB.t) : DB.t :=
  fold_left
    (fun db a =>
       fst (handleApproval env Faults.none (Action.user a) documentId
              (Action.approverId a) (Action.status a) (Action.comments a) db))
    actions db.

(** What the decisions of [actions] do to a single approver row. *)
Definition apply_actions (env : Env.t) (actions : list Action.t) (r : Approver.t)
  : Approver.t :=
  fold_left
    (fun r a =>
       if Nat.eqb (Approver.id r) (Action.approverId a)
       then approver_patch env (Action.status a) (Action.comments a) r
       else r)
    actions r.

Definition is_approved (s : ApprovalStatus.t) : bool :=
  ApprovalStatus.eqb s ApprovalStatus.approved.

Definition is_rejected (s : ApprovalStatus.t) : bool :=
  ApprovalStatus.eqb s ApprovalStatus.rejected.

(** ** Read requests of the pages

    The read requests are not covered by [Faults]; the handlers below take
    the answer of the backend to their single request as [fault]
    ([Some message] when it answers with an error). *)

(** [handleFileChange] of the creation form: [selectedFile] is
    [e.target.files?.[0]], [file] the component's state; the result is the
    new state and what is shown. *)
Definition handleFileChange (selectedFile : option File.t) (file : option File.t)
  : option File.t * list UiEvent :=
  match selectedFile with
  | Some selectedFile =>
      (* Validate file type and size *)
      let allowedTypes :=
        ["application/pdf"; "image/jpeg"; "image/png"; "image/jpg"] in
      let maxSize := 5 * 1024 * 1024 in
      if negb (existsb (String.eqb (File.type selectedFile)) allowedTypes) then
        (file, [toast_error "Please upload a PDF or image file"])
      else if Nat.ltb maxSize (File.size selectedFile) then
        (file, [toast_error "File size must be less than 5MB"])
      else (Some selectedFile, [])
  | None => (file, [])
  end.

(** The file input changed several times, starting from state [file]. *)
Definition select_files (selections : list (option File.t)) (file : option File.t)
  : option File.t :=
  fold_left (fun file selectedFile => fst (handleFileChange selectedFile file))
    selections file.

(** [fetchUsers] of the creation form: the users offered as approvers;
    [users] is the component's state. *)
Definition fetchUsers (fault : option error) (users : list User.t)
  : DB.t -> DB.t * (list User.t * list UiEvent) :=
  try_catch
    (r <- request fault (fun db => (db, filter User.is_admin (DB.users db))) ;;
     data <- unwrap r ;;
     ret (data, []))
    (fun _ => (users, [toast_error "Failed to load users"])).

(** The rows answered to the query of [fetchPendingApprovals]: the inner
    join [approvers!inner] with the filters on [approvers.user_id] and
    [approvers.status] keeps the documents in status [pending_approval] that
    have a matching approver row, each with its matching rows only.  The
    order of the answer ([created_at], a database default) is not modelled:
    the rows come in table order. *)
Definition pending_approvals_of (user : User.t) (db : DB.t) : list PendingDocument.t :=
  filter
    (fun entry =>
       match PendingDocument.approvers entry with
       | [] => false
       | _ :: _ => true
       end)
    (map
       (fun d =>
          PendingDocument.mk d
            (filter
               (fun a =>
                  Nat.eqb (Approver.document_id a) (Document.id d)
                  && Nat.eqb (Approver.user_id a) (User.id user)
                  && ApprovalStatus.eqb (Approver.status a) ApprovalStatus.pending)
               (DB.approvers db)))
       (filter
          (fun d => DocumentStatus.eqb (Document.status d)
                      DocumentStatus.pending_approval)
          (DB.documents db))).

(** [fetchPendingApprovals]; [pendingDocuments] is the component's state. *)
Definition fetchPendingApprovals (fault : option error) (user : User.t)
  (pendingDocuments : list PendingDocument.t)
  : DB.t -> DB.t * (list PendingDocument.t * list UiEvent) :=
  try_catch
    (r <- request fault (fun db => (db, pending_approvals_of user db)) ;;
     data <- unwrap r ;;
     ret (data, []))
    (fun _ => (pendingDocuments, [toast_error "Failed to load pending approvals"])).

(** ** contexts/AuthContext.tsx *)

(** The answer to one [.from('users').select('*').eq('id', ...).single()]:
    the profile row, or an error with its [code]. *)
Inductive ProfileAnswer :=
| profile_found (data : User.t)
| profile_error (code : string).

(** What [fetchUserProfile] does to the auth context. *)
Inductive AuthEffect :=
| setUser (data : User.t)
| setLoading_false
| auth_signOut.

(** [fetchUserProfile(supabaseUser, retryCount)]; [answers] are the answers
    of the backend to the successive profile lookups (the retry timer of one
    second is not modelled).  With no answer left the lookup is still
    pending. *)
Fixpoint fetchUserProfile (answers : list ProfileAnswer) (retryCount : nat)
  : list AuthEffect :=
  match answers with
  | [] => []
  | profile_found data :: _ => [setUser data; setLoading_false]
  | profile_error code :: later =>
      if String.eqb code "PGRST116" && Nat.ltb retryCount 3 then
        (* setTimeout(retry, 1000); return; the finally block runs first *)
        setLoading_false :: fetchUserProfile later (retryCount + 1)
      else
        (* throw error, caught below *)
        (if Nat.leb 3 retryCount then [auth_signOut] else [])
        ++ [setLoading_false]
  end.

(** ** More of pages/DocumentDetails.tsx *)

Definition canUpdateStatus (user : User.t) (document : Document.t) : bool :=
  Nat.eqb (User.id user) (Document.created_by document) || User.is_admin user.

(** Whether the edit button of a signer row is rendered:
    [canUpdateStatus && signer.status === 'pending']. *)
Definition edit_offered (user : User.t) (document : Document.t)
  (signer : ExternalSigner.t) : bool :=
  canUpdateStatus user document
  && SigningStatus.eqb (ExternalSigner.status signer) SigningStatus.pending.

(** One outcome recorded on the details page. *)
Module SignerAction.
Record t := mk {
  user : User.t;
  signerId : uuid;
  status : Outcome.t;
  updateMessage : string
}.
End SignerAction.

(** Outcomes recorded one after the other on the details page of document
    [id]; the page reloads the signer rows after each update
    ([fetchDocumentDetails()] at the end of [updateSignerStatus]) and every
    request is executed. *)
Definition run_outcomes (env : Env.t) (id : uuid) (actions : list SignerAction.t)
  (db : DB.t) : DB.t :=
  fold_left
    (fun db a =>
       fst (updateSignerStatus env Faults.none id (SignerAction.user a)
              (fetch_signers id db) (SignerAction.updateMessage a)
              (SignerAction.signerId a) (SignerAction.status a) db))
    actions db.


Definition is_signed (s : SigningStatus.t) : bool :=
  SigningStatus.eqb s SigningStatus.signed.


(** ** A sample installation, used to run the handlers on concrete data *)

Definition sample_env : Env.t :=
  Env.mk "2025-01-01T00:00:00.000Z" "1735689600000"
    (fun bucket path => "https://files.example/" ^^ bucket ^^ "/" ^^ path).

Definition member : User.t := User.mk 100 "member@club.com" "1234" "Member" false.
Definition admin_one : User.t := User.mk 101 "admin1@club.com" "0001" "Admin One" true.
Definition admin_two : User.t := User.mk 102 "admin2@club.com" "0002" "Admin Two" true.

Definition sample_file : File.t := File.mk "budget.pdf" "application/pdf" 2048.

(** One approver, one external signer. *)
Definition small_form : CreateDocumentFormData.t :=
  CreateDocumentFormData.mk "Budget" "Annual budget of the club" [101]
    [SignerEntry.mk "Dean" "Dean of students"].

(** Two approvers, two external signers. *)
Definition large_form : CreateDocumentFormData.t :=
  CreateDocumentFormData.mk "Budget" "Annual budget of the club" [101; 102]
    [SignerEntry.mk "Dean" "Dean of students";
     SignerEntry.mk "Registrar" "University registrar"].

(** The database after [member] has submitted [small_form]: document 0,
    approver row 1 (user 101), signer row 2. *)
Definition small_submitted : DB.t :=
  fst (handleSubmit sample_env Faults.none member (Some sample_file) small_form DB.empty).

(** The database after [member] has submitted [large_form]: document 0,
    approver rows 1 and 2 (users 101 and 102), signer rows 3 and 4. *)
Definition large_submitted : DB.t :=
  fst (handleSubmit sample_env Faults.none member (Some sample_file) large_form DB.empty).

(** The backend refuses only the insert into [status_updates]. *)
Definition status_updates_down : Faults.t :=
  Faults.mk None None None None None None None None None (Some "request timed out").

(** The backend refuses only the insert into [approvers]. *)
Definition approvers_insert_down : Faults.t :=
  Faults.mk None None None None (Some "duplicate key value") None None None None None.

(** Two orders of the same two decisions on the document of
    [large_submitted]. *)
Definition approve_then_reject : list Action.t :=
  [Action.mk admin_one 1 Decision.approved (Some "looks good");
   Action.mk admin_two 2 Decision.rejected None].

Definition reject_then_approve : list Action.t :=
  [Action.mk admin_two 2 Decision.rejected None;
   Action.mk admin_one 1 Decision.approved (Some "looks good")].

(** [small_submitted] after its only approver has rejected the document. *)
Definition small_rejected : DB.t :=
  fst (handleApproval sample_env Faults.none admin_one 0 1 Decision.rejected
         (Some "not acceptable") small_submitted).

(** [small_submitted] after its approver approved and its signer signed. *)
Definition small_completed : DB.t :=
  let approved :=
    fst (handleApproval sample_env Faults.none admin_one 0 1 Decision.approved
           (Some "fine") small_submitted) in
  fst (updateSignerStatus sample_env Faults.none 0 member
         (fetch_signers 0 approved) "" 2 Outcome.signed approved).

(** [large_submitted] after both approvers approved: status [in_progress],
    signer rows 3 and 4 pending. *)
Definition large_in_progress : DB.t :=
  run_decisions sample_env 0
    [Action.mk admin_one 1 Decision.approved None;
     Action.mk admin_two 2 Decision.approved None]
    large_submitted.

(** Two details pages are open on the document of [large_in_progress], both
    holding the signer rows as loaded then.  On the first, [admin_one]
    records the signature of signer 4. *)
Definition large_one_signed : DB.t :=
  fst (updateSignerStatus sample_env Faults.none 0 admin_one
         (fetch_signers 0 large_in_progress) "" 4 Outcome.signed
         large_in_progress).

(** On the second page, [member] then records the signature of signer 3; the
    page still holds the rows it loaded before the other signature. *)
Definition large_both_signed : DB.t * list UiEvent :=
  updateSignerStatus sample_env Faults.none 0 member
    (fetch_signers 0 large_in_progress) "" 3 Outcome.signed large_one_signed.

(** [admin_one] has a pending approver row on the document of
    [large_submitted]; this is the entry the approvals page lists for them. *)
Definition admin_one_entry : PendingDocument.t :=
  PendingDocument.mk
    (Document.mk 0 "Budget" "Annual budget of the club"
       "https://files.example/documents/documents/1735689600000_budget.pdf"
       100 DocumentStatus.pending_approval)
    [Approver.mk 1 0 101 1 ApprovalStatus.pending None None].

(** The backend executes the approver update and then refuses every read
    and write of the same call. *)
Definition only_approver_update : Faults.t :=
  Faults.mk None None None (Some "connection lost") None None
    (Some "connection lost") None None (Some "connection lost").

(** The backend refuses only updates of the [documents] table. *)
Definition documents_update_down : Faults.t :=
  Faults.mk None None None (Some "permission denied") None None None None None None.

(** The backend refuses only inserts into the [documents] table. *)
Definition documents_insert_down : Faults.t :=
  Faults.mk None None (Some "permission denied") None None None None None None None.

(** [small_submitted] after its only approver has approved: status
    [in_progress], signer row 2 pending. *)
Definition small_in_progress : DB.t :=
  fst (handleApproval sample_env Faults.none admin_one 0 1 Decision.approved
         (Some "fine") small_submitted).





(** The form of [large_form] with the two-character title U+65E5 U+672C,
    six bytes in UTF-8. *)
Definition two_character_title : string :=
  String (Ascii.ascii_of_nat 230) (String (Ascii.ascii_of_nat 151)
  (String (Ascii.ascii_of_nat 165) (String (Ascii.ascii_of_nat 230)
  (String (Ascii.ascii_of_nat 156) (String (Ascii.ascii_of_nat 172)
  EmptyString))))).

Definition two_character_form : CreateDocumentFormData.t :=
  CreateDocumentFormData.mk two_character_title "Annual budget of the club"
    [101; 102] [SignerEntry.mk "Dean" "Dean of students"].

(** * Properties *)

(** ** Equality tests *)

Lemma DocumentStatus_eqb_eq (a b : DocumentStatus.t) :
  DocumentStatus.eqb a b = true <-> a = b.
Proof. destruct a, b; simpl; split; congruence. Qed.

Lemma ApprovalStatus_eqb_eq (a b : ApprovalStatus.t) :
  ApprovalStatus.eqb a b = true <-> a = b.
Proof. destruct a, b; simpl; split; congruence. Qed.

Lemma SigningStatus_eqb_eq (a b : SigningStatus.t) :
  SigningStatus.eqb a b = true <-> a = b.
Proof. destruct a, b; simpl; split; congruence. Qed.

Lemma isAdminCode_spec (employeeCode : string) :
  isAdminCode employeeCode = true
  <-> In employeeCode ["0001"; "0002"; "0003"; "0004"].
Proof.
  unfold isAdminCode. rewrite existsb_exists. split.
  - intros [c [Hin Heq]]. apply String.eqb_eq in Heq. now subst.
  - intros Hin. exists employeeCode. split; [assumption | apply String.eqb_refl].
Qed.

(** ** The handlers and the [users] table *)

(** Unfolds a handler down to the case analysis on the answers of the
    backend and on the conditions it tests. *)
Ltac step_handler :=
  cbv beta iota zeta delta
    [try_catch bind ret throw unwrap request uploadFile
     users_insert documents_insert documents_update approvers_insert
     approvers_update approvers_select_status external_signers_insert
     external_signers_update status_updates_insert].

Ltac split_cases :=
  repeat (match goal with
          | |- context [match ?x with Some _ => _ | None => _ end] =>
              destruct x eqn:?
          | |- context [if ?c then _ else _] => destruct c eqn:?
          end; simpl).

Lemma onSubmit_users env f user file data db :
  DB.users (fst (onSubmit env f user file data db)) = DB.users db.
Proof.
  unfold onSubmit. destruct file as [file|]; [|reflexivity].
  step_handler.
  destruct (Faults.storage_upload f); simpl; [reflexivity|].
  destruct (Faults.documents_insert f); simpl; [reflexivity|].
  destruct (Faults.approvers_insert f); simpl; [reflexivity|].
  destruct (Faults.external_signers_insert f); simpl; [reflexivity|].
  destruct (Faults.status_updates_insert f); reflexivity.
Qed.

Lemma handleSubmit_users env f user file data db :
  DB.users (fst (handleSubmit env f user file data db)) = DB.users db.
Proof.
  unfold handleSubmit. destruct (createDocumentSchema data).
  - apply onSubmit_users.
  - reflexivity.
Qed.

Lemma handleApproval_users env f user documentId approverId status comments db :
  DB.users (fst (handleApproval env f user documentId approverId status comments db))
  = DB.users db.
Proof.
  unfold handleApproval. step_handler.
  destruct (Faults.approvers_update f); simpl; [reflexivity|].
  destruct (Faults.approvers_select f); simpl; [reflexivity|].
  split_cases; reflexivity.
Qed.

Lemma updateSignerStatus_users env f id user signers updateMessage signerId status db :
  DB.users (fst (updateSignerStatus env f id user signers updateMessage signerId status db))
  = DB.users db.
Proof.
  unfold updateSignerStatus. step_handler.
  destruct (Faults.external_signers_update f); simpl; [reflexivity|].
  split_cases; reflexivity.
Qed.

(** C10.  [signUp] writes a profile row exactly when the identity provider
    answered with a created user and the backend executes the insert; that
    row carries the employee code given at signup and [is_admin] is the value
    of [isAdminCode] on it, which is [true] exactly for the codes "0001",
    "0002", "0003" and "0004".  In every other case [signUp] leaves the
    [users] table as it is, and none of the workflow handlers (submission,
    approver decision, signer outcome) writes to it, so privilege is fixed at
    signup. *)
Theorem signUp_privilege_from_employee_code :
  forall (f : Faults.t) (auth : Response AuthData.t)
         (email password employeeCode fullName : string) (db : DB.t),
    DB.users (fst (signUp f auth email password employeeCode fullName db))
    = DB.users db
      ++ match auth with
         | ok data =>
             match AuthData.user data, Faults.users_insert f with
             | Some uid, None =>
                 [User.mk uid email employeeCode fullName
                    (isAdminCode employeeCode)]
             | _, _ => []
             end
         | failed _ => []
         end
    /\ (isAdminCode employeeCode = true
        <-> In employeeCode ["0001"; "0002"; "0003"; "0004"])
    /\ (forall env g user file data,
           DB.users (fst (handleSubmit env g user file data db)) = DB.users db)
    /\ (forall env g user documentId approverId status comments,
           DB.users (fst (handleApproval env g user documentId approverId status
                            comments db)) = DB.users db)
    /\ (forall env g id user signers updateMessage signerId status,
           DB.users (fst (updateSignerStatus env g id user signers updateMessage
                            signerId status db)) = DB.users db).
Proof.
  intros f auth email password employeeCode fullName db.
  split; [|split; [|split; [|split]]].
  - unfold signUp. step_handler.
    destruct auth as [data|e]; simpl; [|now rewrite app_nil_r].
    destruct (AuthData.user data) as [uid|]; simpl; [|now rewrite app_nil_r].
    destruct (Faults.users_insert f); simpl; [now rewrite app_nil_r|reflexivity].
  - apply isAdminCode_spec.
  - intros. apply handleSubmit_users.
  - intros. apply handleApproval_users.
  - intros. apply updateSignerStatus_users.
Qed.

Lemma signUp_privilege_from_employee_code_witness :
  DB.users
    (fst (signUp Faults.none (ok (AuthData.mk (Some 101))) "admin1@club.com"
            "secret" "0001" "Admin One" DB.empty))
  = [User.mk 101 "admin1@club.com" "0001" "Admin One" true]
  /\ DB.users
       (fst (signUp Faults.none (ok (AuthData.mk (Some 100))) "member@club.com"
               "secret" "1234" "Member" DB.empty))
     = [User.mk 100 "member@club.com" "1234" "Member" false].
Proof.
  split.
  - destruct (signUp_privilege_from_employee_code Faults.none
                (ok (AuthData.mk (Some 101))) "admin1@club.com" "secret" "0001"
                "Admin One" DB.empty) as (H & _).
    exact H.
  - destruct (signUp_privilege_from_employee_code Faults.none
                (ok (AuthData.mk (Some 100))) "member@club.com" "secret" "1234"
                "Member" DB.empty) as (H & _).
    exact H.
Defined.

(** ** Submission *)

Lemma nth_error_mapi_from {A B : Type} (f : A -> nat -> B) (l : list A) :
  forall (k i : nat) (x : A),
    nth_error l i = Some x ->
    nth_error (mapi_from f k l) i = Some (f x (k + i)).
Proof.
  induction l as [|y l IH]; intros k i x H.
  - destruct i; discriminate.
  - destruct i as [|i]; simpl in *.
    + injection H as ->. now rewrite Nat.add_0_r.
    + rewrite (IH (S k) i x H). f_equal. f_equal. lia.
Qed.

Lemma length_mapi_from {A B : Type} (f : A -> nat -> B) (l : list A) (k : nat) :
  List.length (mapi_from f k l) = List.length l.
Proof.
  revert k. induction l as [|y l IH]; intros k; simpl; [reflexivity|].
  now rewrite IH.
Qed.

Lemma nth_error_assign_ids {A R : Type} (mk : A -> nat -> uuid -> R)
  (next : uuid) (l : list A) (i : nat) (x : A) :
  nth_error l i = Some x ->
  nth_error (assign_ids next (mapi mk l)) i = Some (mk x i (next + i)).
Proof.
  intros H. unfold assign_ids, mapi.
  apply (nth_error_mapi_from mk l 0 i x) in H.
  apply (nth_error_mapi_from (fun record j => record (next + j)) _ 0 i) in H.
  exact H.
Qed.

Lemma length_assign_ids {A R : Type} (mk : A -> nat -> uuid -> R)
  (next : uuid) (l : list A) :
  List.length (assign_ids next (mapi mk l)) = List.length l.
Proof. unfold assign_ids, mapi. now rewrite !length_mapi_from. Qed.

Lemma empty_approvers_issue (data : CreateDocumentFormData.t) :
  CreateDocumentFormData.approvers data = [] ->
  In ([key "approvers"], "At least one approver is required")
     (createDocumentSchema data).
Proof.
  intros H. unfold createDocumentSchema. rewrite H.
  apply in_or_app; right. apply in_or_app; right.
  apply in_or_app; left. simpl. now left.
Qed.

Lemma empty_signers_issue (data : CreateDocumentFormData.t) :
  CreateDocumentFormData.external_signers data = [] ->
  In ([key "external_signers"], "At least one external signer is required")
     (createDocumentSchema data).
Proof.
  intros H. unfold createDocumentSchema. rewrite H.
  apply in_or_app; right. apply in_or_app; right.
  apply in_or_app; right. apply in_or_app; left. simpl. now left.
Qed.

(** C7.  Submitting form data whose approver list or external-signer list
    is empty is refused by the schema: the form shows validation issues
    (among them the message of the empty list), [onSubmit] is not run and
    the database is left exactly as it was, whatever the backend would have
    answered. *)
Theorem handleSubmit_rejects_empty_lists :
  forall (env : Env.t) (f : Faults.t) (user : User.t) (file : option File.t)
         (data : CreateDocumentFormData.t) (db : DB.t),
    CreateDocumentFormData.approvers data = []
    \/ CreateDocumentFormData.external_signers data = [] ->
    exists issues : list Issue,
      handleSubmit env f user file data db = (db, [form_errors issues])
      /\ issues <> []
      /\ (CreateDocumentFormData.approvers data = [] ->
          In ([key "approvers"], "At least one approver is required") issues)
      /\ (CreateDocumentFormData.external_signers data = [] ->
          In ([key "external_signers"], "At least one external signer is required")
             issues).
Proof.
  intros env f user file data db H.
  exists (createDocumentSchema data).
  assert (Hne : createDocumentSchema data <> []).
  { intros E. destruct H as [H|H].
    - apply empty_approvers_issue in H. rewrite E in H. exact H.
    - apply empty_signers_issue in H. rewrite E in H. exact H. }
  split; [|split; [exact Hne|split]].
  - unfold handleSubmit. destruct (createDocumentSchema data); [now elim Hne|reflexivity].
  - apply empty_approvers_issue.
  - apply empty_signers_issue.
Qed.

Lemma handleSubmit_rejects_empty_lists_witness :
  exists issues : list Issue,
    handleSubmit sample_env Faults.none member (Some sample_file)
      (CreateDocumentFormData.mk "Budget" "Annual budget of the club" []
         [SignerEntry.mk "Dean" "Dean of students"]) DB.empty
    = (DB.empty, [form_errors issues])
    /\ issues <> [].
Proof.
  destruct (handleSubmit_rejects_empty_lists sample_env Faults.none member
              (Some sample_file)
              (CreateDocumentFormData.mk "Budget" "Annual budget of the club" []
                 [SignerEntry.mk "Dean" "Dean of students"]) DB.empty)
    as [issues [H1 [H2 _]]].
  - left. reflexivity.
  - exists issues. split; assumption.
Defined.

(** The approver rows a submission inserts for document [docId] when the
    database hands out ids from [next]. *)
Lemma submitted_approver_row (docId next : uuid) (approvers : list uuid)
  (i : nat) (approverId : uuid) :
  nth_error approvers i = Some approverId ->
  nth_error
    (assign_ids next
       (mapi (fun approverId index => fun id =>
                Approver.mk id docId approverId (index + 1)
                  ApprovalStatus.pending None None) approvers)) i
  = Some (Approver.mk (next + i) docId approverId (i + 1)
            ApprovalStatus.pending None None).
Proof.
  intros H.
  exact (nth_error_assign_ids
           (fun approverId index id =>
              Approver.mk id docId approverId (index + 1)
                ApprovalStatus.pending None None) next approvers i approverId H).
Qed.

Lemma submitted_signer_row (docId next : uuid) (signers : list SignerEntry.t)
  (i : nat) (signer : SignerEntry.t) :
  nth_error signers i = Some signer ->
  nth_error
    (assign_ids next
       (mapi (fun signer index => fun id =>
                ExternalSigner.mk id docId (SignerEntry.name signer)
                  (SignerEntry.designation signer) (index + 1)
                  SigningStatus.pending None None) signers)) i
  = Some (ExternalSigner.mk (next + i) docId (SignerEntry.name signer)
            (SignerEntry.designation signer) (i + 1)
            SigningStatus.pending None None).
Proof.
  intros H.
  exact (nth_error_assign_ids
           (fun signer index id =>
              ExternalSigner.mk id docId (SignerEntry.name signer)
                (SignerEntry.designation signer) (index + 1)
                SigningStatus.pending None None) next signers i signer H).
Qed.

(** C4, as stated, fails: a submission can report success without having
    created a status update.  When the backend refuses only the insert into
    [status_updates], [onSubmit] shows the success toast and navigates to
    the new document, whose document, approver and signer rows exist, and
    the activity log is empty. *)
Lemma successful_submission_without_status_update :
  snd (handleSubmit sample_env status_updates_down member (Some sample_file)
         large_form DB.empty)
  = [toast_success "Document created successfully!"; navigate_document 0]
  /\ DB.status_updates
       (fst (handleSubmit sample_env status_updates_down member
               (Some sample_file) large_form DB.empty)) = []
  /\ map Document.id
       (DB.documents
          (fst (handleSubmit sample_env status_updates_down member
                  (Some sample_file) large_form DB.empty))) = [0]
  /\ map Approver.user_id
       (DB.approvers
          (fst (handleSubmit sample_env status_updates_down member
                  (Some sample_file) large_form DB.empty))) = [101; 102].
Proof. repeat split. Qed.

(** C4, amended.  A submission that reports success (the success toast and
    the navigation to a document id) has appended exactly one document row,
    whose id is the one navigated to (status [pending_approval], created by
    the submitting user), one approver row per selected approver id (status
    [pending], [order] = its position counted from 1, pointing at the new
    document) and one external-signer row per entry (status [pending],
    [order] = its position counted from 1); it has appended one status update
    of type [created] when the backend executed that last insert, and none
    when the backend refused it, since the answer to that insert is not
    inspected. *)
Theorem successful_submission_creates_rows :
  forall (env : Env.t) (f : Faults.t) (user : User.t) (file : option File.t)
         (data : CreateDocumentFormData.t) (db : DB.t) (id : uuid),
    snd (handleSubmit env f user file data db)
    = [toast_success "Document created successfully!"; navigate_document id] ->
    exists (doc : Document.t) (approverRows : list Approver.t)
           (signerRows : list ExternalSigner.t) (events : list StatusUpdate.t),
      let db' := fst (handleSubmit env f user file data db) in
      DB.documents db' = DB.documents db ++ [doc]
      /\ Document.id doc = id
      /\ Document.status doc = DocumentStatus.pending_approval
      /\ Document.created_by doc = User.id user
      /\ Document.title doc = CreateDocumentFormData.title data
      /\ Document.description doc = CreateDocumentFormData.description data
      /\ DB.approvers db' = DB.approvers db ++ approverRows
      /\ List.length approverRows
         = List.length (CreateDocumentFormData.approvers data)
      /\ (forall i approverId,
             nth_error (CreateDocumentFormData.approvers data) i = Some approverId ->
             exists row,
               nth_error approverRows i = Some row
               /\ Approver.document_id row = id
               /\ Approver.user_id row = approverId
               /\ Approver.order row = i + 1
               /\ Approver.status row = ApprovalStatus.pending)
      /\ DB.external_signers db' = DB.external_signers db ++ signerRows
      /\ List.length signerRows
         = List.length (CreateDocumentFormData.external_signers data)
      /\ (forall i signer,
             nth_error (CreateDocumentFormData.external_signers data) i = Some signer ->
             exists row,
               nth_error signerRows i = Some row
               /\ ExternalSigner.document_id row = id
               /\ ExternalSigner.name row = SignerEntry.name signer
               /\ ExternalSigner.designation row = SignerEntry.designation signer
               /\ ExternalSigner.order row = i + 1
               /\ ExternalSigner.status row = SigningStatus.pending)
      /\ DB.status_updates db' = DB.status_updates db ++ events
      /\ (Faults.status_updates_insert f = None ->
          exists event,
            events = [event]
            /\ StatusUpdate.document_id event = id
            /\ StatusUpdate.update_type event = UpdateType.created
            /\ StatusUpdate.updated_by event = User.id user)
      /\ (Faults.status_updates_insert f <> None -> events = []).
Proof.
  intros env f user file data db id.
  unfold handleSubmit.
  destruct (createDocumentSchema data); [|cbn; discriminate].
  unfold onSubmit. destruct file as [file|]; [|cbn; discriminate].
  step_handler.
  destruct (Faults.storage_upload f); [cbn; discriminate|].
  destruct (Faults.documents_insert f); [cbn; discriminate|].
  destruct (Faults.approvers_insert f); [cbn; discriminate|].
  destruct (Faults.external_signers_insert f); [cbn; discriminate|].
  assert (Hrows :
            forall docId next : uuid,
              (forall i approverId,
                  nth_error (CreateDocumentFormData.approvers data) i
                  = Some approverId ->
                  exists row,
                    nth_error
                      (assign_ids next
                         (mapi (fun approverId index => fun id =>
                                  Approver.mk id docId approverId (index + 1)
                                    ApprovalStatus.pending None None)
                               (CreateDocumentFormData.approvers data))) i
                    = Some row
                    /\ Approver.document_id row = docId
                    /\ Approver.user_id row = approverId
                    /\ Approver.order row = i + 1
                    /\ Approver.status row = ApprovalStatus.pending)
              /\ (forall i signer,
                     nth_error (CreateDocumentFormData.external_signers data) i
                     = Some signer ->
                     exists row,
                       nth_error
                         (assign_ids next
                            (mapi (fun signer index => fun id =>
                                     ExternalSigner.mk id docId
                                       (SignerEntry.name signer)
                                       (SignerEntry.designation signer)
                                       (index + 1) SigningStatus.pending None None)
                                  (CreateDocumentFormData.external_signers data))) i
                       = Some row
                       /\ ExternalSigner.document_id row = docId
                       /\ ExternalSigner.name row = SignerEntry.name signer
                       /\ ExternalSigner.designation row
                          = SignerEntry.designation signer
                       /\ ExternalSigner.order row = i + 1
                       /\ ExternalSigner.status row = SigningStatus.pending)).
  { intros docId next. split.
    - intros i approverId Hi. eexists. split.
      + apply submitted_approver_row. exact Hi.
      + simpl. repeat split.
    - intros i signer Hi. eexists. split.
      + apply submitted_signer_row. exact Hi.
      + simpl. repeat split. }
  pose proof (fun d n => proj1 (Hrows d n)) as Hrows1.
  pose proof (fun d n => proj2 (Hrows d n)) as Hrows2.
  clear Hrows.
  destruct (Faults.status_updates_insert f) as [e|];
    cbn [fst snd DB.documents DB.approvers DB.external_signers DB.status_updates
         DB.bump DB.with_documents DB.with_approvers DB.with_external_signers
         DB.with_status_updates DB.with_storage DB.next_uuid DB.users DB.storage
         Document.id];
    intros Hok; injection Hok as <-;
    eexists; eexists; eexists; eexists;
    (split; [reflexivity|]);
    (split; [reflexivity|]);
    cbn [Document.status Document.created_by Document.title Document.description
         Document.id];
    do 4 (split; [reflexivity|]);
    (split; [reflexivity|]);
    (split; [apply length_assign_ids|]);
    (split; [apply Hrows1|]);
    (split; [reflexivity|]);
    (split; [apply length_assign_ids|]);
    (split; [apply Hrows2|]).
  - split; [symmetry; apply app_nil_r|]. split; [discriminate|reflexivity].
  - split; [reflexivity|]. split.
    + intros _. eexists. split; [reflexivity|]. simpl. repeat split.
    + intros H. now elim H.
Qed.

Lemma successful_submission_creates_rows_witness :
  exists (doc : Document.t) (approverRows : list Approver.t)
         (signerRows : list ExternalSigner.t) (event : StatusUpdate.t),
    Document.id doc = 0
    /\ DB.documents large_submitted = [doc]
    /\ DB.approvers large_submitted = approverRows
    /\ List.length approverRows = 2
    /\ DB.external_signers large_submitted = signerRows
    /\ DB.status_updates large_submitted = [event]
    /\ StatusUpdate.update_type event = UpdateType.created.
Proof.
  destruct (successful_submission_creates_rows sample_env Faults.none member
              (Some sample_file) large_form DB.empty 0 eq_refl)
    as (doc & approverRows & signerRows & events & H).
  destruct H as (H1 & H0 & _ & _ & _ & _ & H3 & H4 & _ & H5 & _ & _ & H6 & H7 & _).
  destruct (H7 eq_refl) as (event & -> & _ & H8 & _).
  exists doc, approverRows, signerRows, event.
  repeat split; assumption.
Defined.

(** C8, as stated, fails for the last write: when the backend refuses the
    insert into [status_updates] after the document, approver and signer rows
    were written, [onSubmit] does not look at the answer; it shows the success
    toast and navigates to the document, and no status update exists. *)
Lemma status_update_failure_not_surfaced :
  handleSubmit sample_env status_updates_down member (Some sample_file)
    small_form DB.empty
  = (DB.mk []
       [Document.mk 0 "Budget" "Annual budget of the club"
          "https://files.example/documents/documents/1735689600000_budget.pdf"
          100 DocumentStatus.pending_approval]
       [Approver.mk 1 0 101 1 ApprovalStatus.pending None None]
       [ExternalSigner.mk 2 0 "Dean" "Dean of students" 1
          SigningStatus.pending None None]
       []
       [("documents", "documents/1735689600000_budget.pdf")]
       3,
     [toast_success "Document created successfully!"; navigate_document 0]).
Proof. reflexivity. Qed.

(** C8, amended.  A submission is not atomic.  When the document insert
    succeeded and the backend refuses the insert of the approver rows, or
    executes it and refuses the insert of the external-signer rows, the rows
    written so far stay in the database (the document row; in the second case
    also the approver rows), nothing later is written, and the handler reports
    the failure with an error toast carrying the backend's message (or
    "Failed to create document" when that message is empty) instead of the
    success toast and navigation. *)
Theorem onSubmit_partial_writes_persist :
  forall (env : Env.t) (f : Faults.t) (user : User.t) (file : File.t)
         (data : CreateDocumentFormData.t) (db : DB.t) (e : error),
    Faults.storage_upload f = None ->
    Faults.documents_insert f = None ->
    Faults.approvers_insert f = Some e
    \/ (Faults.approvers_insert f = None
        /\ Faults.external_signers_insert f = Some e) ->
    let db' := fst (onSubmit env f user (Some file) data db) in
    snd (onSubmit env f user (Some file) data db)
    = [toast_error (or_else e "Failed to create document")]
    /\ (exists doc,
           DB.documents db' = DB.documents db ++ [doc]
           /\ Document.id doc = DB.next_uuid db
           /\ Document.status doc = DocumentStatus.pending_approval
           /\ (Faults.approvers_insert f = Some e ->
               DB.approvers db' = DB.approvers db)
           /\ (Faults.approvers_insert f = None ->
               exists rows,
                 DB.approvers db' = DB.approvers db ++ rows
                 /\ List.length rows
                    = List.length (CreateDocumentFormData.approvers data)
                 /\ forall row, In row rows ->
                      Approver.document_id row = Document.id doc))
    /\ DB.external_signers db' = DB.external_signers db
    /\ DB.status_updates db' = DB.status_updates db.
Proof.
  intros env f user file data db e Hup Hdoc H.
  unfold onSubmit. step_handler. rewrite Hup, Hdoc.
  destruct H as [Happ | [Happ Hsig]].
  - rewrite Happ. cbn.
    split; [reflexivity|]. split; [|split; reflexivity].
    eexists. split; [reflexivity|]. split; [reflexivity|].
    split; [reflexivity|]. split; [reflexivity|]. discriminate.
  - rewrite Happ, Hsig. cbn.
    split; [reflexivity|]. split; [|split; reflexivity].
    eexists. split; [reflexivity|]. split; [reflexivity|].
    split; [reflexivity|]. split; [discriminate|].
    intros _. eexists. split; [reflexivity|].
    split; [apply length_assign_ids|].
    intros row Hin. apply In_nth_error in Hin. destruct Hin as [i Hi].
    destruct (nth_error (CreateDocumentFormData.approvers data) i) as [a|] eqn:Ha.
    + rewrite (submitted_approver_row _ _ _ _ _ Ha) in Hi.
      injection Hi as <-. reflexivity.
    + apply nth_error_None in Ha.
      assert (Hlt : i < List.length (CreateDocumentFormData.approvers data)).
      { erewrite <- length_assign_ids. apply nth_error_Some. rewrite Hi. discriminate. }
      lia.
Qed.

Lemma onSubmit_partial_writes_persist_witness :
  snd (onSubmit sample_env approvers_insert_down member (Some sample_file)
         small_form DB.empty)
  = [toast_error "duplicate key value"]
  /\ List.length
       (DB.documents
          (fst (onSubmit sample_env approvers_insert_down member
                  (Some sample_file) small_form DB.empty))) = 1.
Proof.
  destruct (onSubmit_partial_writes_persist sample_env approvers_insert_down
              member sample_file small_form DB.empty "duplicate key value")
    as (H1 & (doc & H2 & _) & _).
  - reflexivity.
  - reflexivity.
  - left. reflexivity.
  - split.
    + exact H1.
    + rewrite H2. reflexivity.
Defined.

(** ** Approver decisions *)

Lemma filter_update_where {R : Type} (p matches : R -> bool) (patch : R -> R)
  (rows : list R) :
  (forall r, p (patch r) = p r) ->
  filter p (update_where matches patch rows)
  = update_where matches patch (filter p rows).
Proof.
  intros Hp. unfold update_where.
  induction rows as [|r rows IH]; simpl; [reflexivity|].
  assert (E : p (if matches r then patch r else r) = p r).
  { destruct (matches r); [apply Hp|reflexivity]. }
  rewrite E. destruct (p r); simpl; now rewrite IH.
Qed.

Lemma find_update_where_documents (documentId : uuid) (s : DocumentStatus.t)
  (docs : list Document.t) (other : uuid) :
  option_map Document.status
    (find (fun d => Nat.eqb (Document.id d) other)
       (update_where (fun d => Nat.eqb (Document.id d) documentId)
          (Document.with_status s) docs))
  = option_map
      (fun cur => if Nat.eqb other documentId then s else cur)
      (option_map Document.status
         (find (fun d => Nat.eqb (Document.id d) other) docs)).
Proof.
  unfold update_where.
  induction docs as [|d docs IH]; simpl; [reflexivity|].
  destruct (Nat.eqb (Document.id d) documentId) eqn:E1; simpl.
  - destruct (Nat.eqb (Document.id d) other) eqn:E2; simpl.
    + apply Nat.eqb_eq in E1, E2. subst.
      now rewrite Nat.eqb_refl.
    + exact IH.
  - destruct (Nat.eqb (Document.id d) other) eqn:E2; simpl.
    + apply Nat.eqb_eq in E2. subst. now rewrite E1.
    + exact IH.
Qed.

(** The approver table after a decision whose update the backend executed. *)
Lemma handleApproval_approvers env f user documentId approverId status comments db :
  Faults.approvers_update f = None ->
  DB.approvers (fst (handleApproval env f user documentId approverId status comments db))
  = update_where (fun a => Nat.eqb (Approver.id a) approverId)
      (approver_patch env status comments) (DB.approvers db).
Proof.
  intros H. unfold handleApproval. step_handler. rewrite H. simpl.
  split_cases; reflexivity.
Qed.

Lemma handleApproval_approver_rows env f user documentId approverId status comments db :
  Faults.approvers_update f = None ->
  approver_rows
    (fst (handleApproval env f user documentId approverId status comments db))
    documentId
  = update_where (fun a => Nat.eqb (Approver.id a) approverId)
      (approver_patch env status comments) (approver_rows db documentId).
Proof.
  intros H. unfold approver_rows. rewrite handleApproval_approvers by exact H.
  apply filter_update_where. reflexivity.
Qed.

(** The status of every document after a decision, when the three checked
    requests are executed: the target document gets the status derived from
    its approver rows as they are after the update. *)
Lemma handleApproval_document_status env f user documentId approverId status comments db :
  Faults.approvers_update f = None ->
  Faults.approvers_select f = None ->
  Faults.documents_update f = None ->
  forall other,
    document_status
      (fst (handleApproval env f user documentId approverId status comments db))
      other
    = option_map
        (fun cur =>
           if Nat.eqb other documentId then
             let statuses :=
               approver_statuses
                 (fst (handleApproval env f user documentId approverId status
                         comments db)) documentId in
             if existsb is_rejected statuses then DocumentStatus.rejected
             else if forallb is_approved statuses then DocumentStatus.in_progress
             else cur
           else cur)
        (document_status db other).
Proof.
  intros Hu Hs Hd other.
  unfold approver_statuses.
  rewrite handleApproval_approver_rows by exact Hu.
  unfold approver_rows.
  rewrite <- (filter_update_where
                (fun a => Nat.eqb (Approver.document_id a) documentId)
                (fun a => Nat.eqb (Approver.id a) approverId)
                (approver_patch env status comments) (DB.approvers db))
    by reflexivity.
  unfold document_status, handleApproval. step_handler.
  rewrite Hu, Hs, Hd. cbn [fst snd DB.approvers DB.with_approvers].
  fold is_rejected. fold is_approved.
  set (statuses :=
         map Approver.status
           (filter (fun a => Nat.eqb (Approver.document_id a) documentId)
              (update_where (fun a => Nat.eqb (Approver.id a) approverId)
                 (approver_patch env status comments) (DB.approvers db)))).
  destruct (existsb is_rejected statuses) eqn:Erej; simpl.
  - destruct (Faults.status_updates_insert f); simpl;
      rewrite find_update_where_documents;
      destruct (find _ (DB.documents db)); simpl; try reflexivity;
      destruct (Nat.eqb other documentId); reflexivity.
  - destruct (forallb is_approved statuses) eqn:Eall; simpl.
    + destruct (Faults.status_updates_insert f); simpl;
        rewrite find_update_where_documents;
        destruct (find _ (DB.documents db)); simpl; try reflexivity;
        destruct (Nat.eqb other documentId); reflexivity.
    + destruct (Faults.status_updates_insert f); simpl;
        destruct (find _ (DB.documents db)); simpl; try reflexivity;
        destruct (Nat.eqb other documentId); reflexivity.
Qed.

(** C1.  A decision recorded on a document in status [pending_approval],
    the requests on the approver and document rows being executed: the
    approver rows matching the given id are updated, all approver rows of the
    document are read again, and the document's stored status afterwards is
    [rejected] if any of them is rejected, else [in_progress] if all of them
    are approved, else still [pending_approval]; other documents keep their
    status. *)
Theorem handleApproval_derives_status :
  forall (env : Env.t) (f : Faults.t) (user : User.t)
         (documentId approverId : uuid) (status : Decision.t)
         (comments : option string) (db : DB.t),
    Faults.approvers_update f = None ->
    Faults.approvers_select f = None ->
    Faults.documents_update f = None ->
    document_status db documentId = Some DocumentStatus.pending_approval ->
    let db' :=
      fst (handleApproval env f user documentId approverId status comments db) in
    DB.approvers db'
    = update_where (fun a => Nat.eqb (Approver.id a) approverId)
        (approver_patch env status comments) (DB.approvers db)
    /\ document_status db' documentId
       = Some (if existsb (fun s => ApprovalStatus.eqb s ApprovalStatus.rejected)
                    (approver_statuses db' documentId)
               then DocumentStatus.rejected
               else if forallb (fun s => ApprovalStatus.eqb s ApprovalStatus.approved)
                         (approver_statuses db' documentId)
                    then DocumentStatus.in_progress
                    else DocumentStatus.pending_approval)
    /\ forall other, other <> documentId ->
         document_status db' other = document_status db other.
Proof.
  intros env f user documentId approverId status comments db Hu Hs Hd Hdoc db'.
  split; [apply handleApproval_approvers; exact Hu|]. split.
  - subst db'. rewrite handleApproval_document_status by assumption.
    rewrite Hdoc. simpl. rewrite Nat.eqb_refl. reflexivity.
  - intros other Hne. subst db'.
    rewrite handleApproval_document_status by assumption.
    apply Nat.eqb_neq in Hne. rewrite Hne.
    destruct (document_status db other); reflexivity.
Qed.

Lemma handleApproval_derives_status_witness :
  document_status
    (fst (handleApproval sample_env Faults.none admin_one 0 1 Decision.approved
            (Some "fine") large_submitted)) 0
  = Some DocumentStatus.pending_approval
  /\ document_status
       (fst (handleApproval sample_env Faults.none admin_two 0 2 Decision.approved
               None
               (fst (handleApproval sample_env Faults.none admin_one 0 1
                       Decision.approved (Some "fine") large_submitted)))) 0
     = Some DocumentStatus.in_progress.
Proof.
  split.
  - pose proof (handleApproval_derives_status sample_env Faults.none admin_one 0 1
                  Decision.approved (Some "fine") large_submitted
                  eq_refl eq_refl eq_refl eq_refl) as (_ & H & _).
    rewrite H. reflexivity.
  - pose proof (handleApproval_derives_status sample_env Faults.none admin_two 0 2
                  Decision.approved None
                  (fst (handleApproval sample_env Faults.none admin_one 0 1
                          Decision.approved (Some "fine") large_submitted))
                  eq_refl eq_refl eq_refl eq_refl) as (_ & H & _).
    rewrite H. reflexivity.
Defined.

(** A decision that reports success had its approver update and its
    re-read of the approver rows executed. *)
Lemma handleApproval_success_requests env f user documentId approverId status
  comments db :
  snd (handleApproval env f user documentId approverId status comments db)
  = [toast_success ("Document " ^^ Decision.to_string status ^^ " successfully")] ->
  Faults.approvers_update f = None /\ Faults.approvers_select f = None.
Proof.
  unfold handleApproval. step_handler.
  destruct (Faults.approvers_update f); [cbn; discriminate|].
  destruct (Faults.approvers_select f); [cbn; discriminate|].
  intros _. split; reflexivity.
Qed.

(** C9, as stated, fails: a decision can report success without having
    appended a status update.  When the backend refuses only the insert into
    [status_updates], [handleApproval] stores the decision, shows
    "Document approved successfully" and the activity log is as before. *)
Lemma successful_decision_without_status_update :
  snd (handleApproval sample_env status_updates_down admin_one 0 1
         Decision.approved (Some "fine") large_submitted)
  = [toast_success "Document approved successfully"]
  /\ map Approver.status
       (DB.approvers
          (fst (handleApproval sample_env status_updates_down admin_one 0 1
                  Decision.approved (Some "fine") large_submitted)))
     = [ApprovalStatus.approved; ApprovalStatus.pending]
  /\ DB.status_updates
       (fst (handleApproval sample_env status_updates_down admin_one 0 1
               Decision.approved (Some "fine") large_submitted))
     = DB.status_updates large_submitted.
Proof. repeat split. Qed.

(** C9, amended.  A decision that reports success appends at most one
    status update and changes no earlier one: exactly one when the backend
    executed the insert, none when it refused it, since the answer to that
    insert is not inspected.  The appended status update has the decision
    ([approved] or [rejected]) as its type, names the document and the acting
    user, and its message is the comments when comments were given and are
    not empty, and otherwise a generated summary: "Document rejected by one
    or more approvers" when some approver row of the document is rejected,
    "Document approved by all approvers and ready for signing" when all are
    approved, and "Document <decision> by <full name>" in between. *)
Theorem successful_decision_appends_status_update :
  forall (env : Env.t) (f : Faults.t) (user : User.t)
         (documentId approverId : uuid) (status : Decision.t)
         (comments : option string) (db : DB.t),
    snd (handleApproval env f user documentId approverId status comments db)
    = [toast_success ("Document " ^^ Decision.to_string status ^^ " successfully")] ->
    let db' :=
      fst (handleApproval env f user documentId approverId status comments db) in
    let summary :=
      if existsb is_rejected (approver_statuses db' documentId)
      then "Document rejected by one or more approvers"
      else if forallb is_approved (approver_statuses db' documentId)
           then "Document approved by all approvers and ready for signing"
           else "Document " ^^ Decision.to_string status ^^ " by "
                ^^ User.full_name user in
    exists events : list StatusUpdate.t,
      DB.status_updates db' = DB.status_updates db ++ events
      /\ (Faults.status_updates_insert f = None ->
          exists event : StatusUpdate.t,
            events = [event]
            /\ StatusUpdate.update_type event = Decision.to_update_type status
            /\ StatusUpdate.document_id event = documentId
            /\ StatusUpdate.updated_by event = User.id user
            /\ (forall c, comments = Some c -> c <> "" ->
                StatusUpdate.message event = c)
            /\ (comments = None \/ comments = Some "" ->
                StatusUpdate.message event = summary))
      /\ (Faults.status_updates_insert f <> None -> events = []).
Proof.
  intros env f user documentId approverId status comments db Hok db' summary.
  destruct (handleApproval_success_requests _ _ _ _ _ _ _ _ Hok) as [Hu Hs].
  subst summary db'. unfold approver_statuses.
  rewrite handleApproval_approver_rows by exact Hu.
  unfold approver_rows.
  rewrite <- (filter_update_where
                (fun a => Nat.eqb (Approver.document_id a) documentId)
                (fun a => Nat.eqb (Approver.id a) approverId)
                (approver_patch env status comments) (DB.approvers db))
    by reflexivity.
  revert Hok. unfold handleApproval. step_handler.
  rewrite Hu, Hs. cbn [fst snd DB.approvers DB.with_approvers].
  fold is_rejected. fold is_approved.
  set (statuses :=
         map Approver.status
           (filter (fun a => Nat.eqb (Approver.document_id a) documentId)
              (update_where (fun a => Nat.eqb (Approver.id a) approverId)
                 (approver_patch env status comments) (DB.approvers db)))).
  assert (Hmsg : forall m : string,
             (forall c, comments = Some c -> c <> "" -> opt_or_else comments m = c)
             /\ (comments = None \/ comments = Some "" -> opt_or_else comments m = m)).
  { intros m. split.
    - intros c -> Hc. simpl. unfold or_else.
      destruct (String.eqb c "") eqn:E; [|reflexivity].
      apply String.eqb_eq in E. contradiction.
    - intros [-> | ->]; reflexivity. }
  assert (Hlog : forall (m : string) (db1 : DB.t),
             DB.status_updates db1 = DB.status_updates db ->
             exists events : list StatusUpdate.t,
               DB.status_updates
                 (fst (match Faults.status_updates_insert f with
                       | Some e0 => (db1, returned (failed e0))
                       | None =>
                           (DB.bump 1
                              (DB.with_status_updates
                                 (DB.status_updates db1
                                  ++ [StatusUpdate.mk (DB.next_uuid db1) documentId
                                        (User.id user)
                                        (Decision.to_update_type status)
                                        (opt_or_else comments m)]) db1),
                            returned (ok tt))
                       end))
               = DB.status_updates db ++ events
               /\ (Faults.status_updates_insert f = None ->
                   exists event : StatusUpdate.t,
                     events = [event]
                     /\ StatusUpdate.update_type event
                        = Decision.to_update_type status
                     /\ StatusUpdate.document_id event = documentId
                     /\ StatusUpdate.updated_by event = User.id user
                     /\ (forall c, comments = Some c -> c <> "" ->
                         StatusUpdate.message event = c)
                     /\ (comments = None \/ comments = Some "" ->
                         StatusUpdate.message event = m))
               /\ (Faults.status_updates_insert f <> None -> events = [])).
  { intros m db1 E. destruct (Faults.status_updates_insert f) as [e0|]; cbn.
    - exists []. rewrite app_nil_r. split; [exact E|].
      split; [discriminate|reflexivity].
    - eexists. rewrite E. split; [reflexivity|]. split.
      + intros _. eexists. split; [reflexivity|]. cbn. repeat split; apply Hmsg.
      + intros H. now elim H. }
  destruct (existsb is_rejected statuses).
  - destruct (Faults.documents_update f); [cbn; discriminate|]. intros _.
    destruct (Hlog "Document rejected by one or more approvers"
                (DB.with_documents
                   (update_where (fun d => Nat.eqb (Document.id d) documentId)
                      (Document.with_status DocumentStatus.rejected)
                      (DB.documents (DB.with_approvers
                         (update_where (fun a => Nat.eqb (Approver.id a) approverId)
                            (approver_patch env status comments) (DB.approvers db))
                         db)))
                   (DB.with_approvers
                      (update_where (fun a => Nat.eqb (Approver.id a) approverId)
                         (approver_patch env status comments) (DB.approvers db))
                      db)) eq_refl) as (events & H1 & H2).
    exists events. split; [|exact H2].
    rewrite <- H1. destruct (Faults.status_updates_insert f); reflexivity.
  - destruct (forallb is_approved statuses).
    + destruct (Faults.documents_update f); [cbn; discriminate|]. intros _.
      destruct (Hlog "Document approved by all approvers and ready for signing"
                  (DB.with_documents
                     (update_where (fun d => Nat.eqb (Document.id d) documentId)
                        (Document.with_status DocumentStatus.in_progress)
                        (DB.documents (DB.with_approvers
                           (update_where (fun a => Nat.eqb (Approver.id a) approverId)
                              (approver_patch env status comments) (DB.approvers db))
                           db)))
                     (DB.with_approvers
                        (update_where (fun a => Nat.eqb (Approver.id a) approverId)
                           (approver_patch env status comments) (DB.approvers db))
                        db)) eq_refl) as (events & H1 & H2).
      exists events. split; [|exact H2].
      rewrite <- H1. destruct (Faults.status_updates_insert f); reflexivity.
    + intros _.
      destruct (Hlog ("Document " ^^ Decision.to_string status ^^ " by "
                      ^^ User.full_name user)
                  (DB.with_approvers
                     (update_where (fun a => Nat.eqb (Approver.id a) approverId)
                        (approver_patch env status comments) (DB.approvers db))
                     db) eq_refl) as (events & H1 & H2).
      exists events. split; [|exact H2].
      rewrite <- H1. destruct (Faults.status_updates_insert f); reflexivity.
Qed.

Lemma successful_decision_appends_status_update_witness :
  exists event : StatusUpdate.t,
    DB.status_updates
      (fst (handleApproval sample_env Faults.none admin_one 0 1 Decision.approved
              (Some "") large_submitted))
    = DB.status_updates large_submitted ++ [event]
    /\ StatusUpdate.update_type event = UpdateType.approved
    /\ StatusUpdate.message event = "Document approved by Admin One".
Proof.
  destruct (successful_decision_appends_status_update sample_env Faults.none
              admin_one 0 1 Decision.approved (Some "") large_submitted eq_refl)
    as (events & H1 & H2 & _).
  destruct (H2 eq_refl) as (event & -> & H3 & _ & _ & _ & H4).
  exists event. split; [exact H1|]. split; [exact H3|].
  rewrite H4 by (right; reflexivity). reflexivity.
Defined.

(** ** Order of the decisions *)

Lemma apply_actions_id env actions r :
  Approver.id (apply_actions env actions r) = Approver.id r.
Proof.
  unfold apply_actions. revert r.
  induction actions as [|a actions IH]; intros r; simpl; [reflexivity|].
  rewrite IH. destruct (Nat.eqb (Approver.id r) (Action.approverId a)); reflexivity.
Qed.

Lemma apply_actions_untouched env actions r :
  ~ In (Approver.id r) (map Action.approverId actions) ->
  apply_actions env actions r = r.
Proof.
  unfold apply_actions. revert r.
  induction actions as [|a actions IH]; intros r Hnot; simpl; [reflexivity|].
  simpl in Hnot.
  destruct (Nat.eqb (Approver.id r) (Action.approverId a)) eqn:E.
  - apply Nat.eqb_eq in E. exfalso. apply Hnot. left. now symmetry.
  - apply IH. intros Hin. apply Hnot. now right.
Qed.

(** When no two actions target the same row, a row targeted by an action
    ends with the status that action decided. *)
Lemma apply_actions_status env actions :
  NoDup (map Action.approverId actions) ->
  forall r a,
    In a actions ->
    Action.approverId a = Approver.id r ->
    Approver.status (apply_actions env actions r)
    = Decision.to_status (Action.status a).
Proof.
  induction actions as [|x actions IH]; intros Hnd r a Hin Hid; [destruct Hin|].
  simpl in Hnd. inversion Hnd as [|? ? Hnotin Hnd']; subst.
  change (apply_actions env (x :: actions) r)
    with (apply_actions env actions
            (if Nat.eqb (Approver.id r) (Action.approverId x)
             then approver_patch env (Action.status x) (Action.comments x) r
             else r)).
  destruct Hin as [-> | Hin].
  - rewrite <- Hid, Nat.eqb_refl.
    rewrite apply_actions_untouched; [reflexivity|].
    simpl. rewrite <- Hid. exact Hnotin.
  - destruct (Nat.eqb (Approver.id r) (Action.approverId x)) eqn:E.
    + apply Nat.eqb_eq in E. exfalso. apply Hnotin.
      rewrite <- E, <- Hid. now apply in_map.
    + now apply IH.
Qed.

Lemma run_decisions_approver_rows env documentId actions db :
  approver_rows (run_decisions env documentId actions db) documentId
  = map (apply_actions env actions) (approver_rows db documentId).
Proof.
  unfold run_decisions, apply_actions. revert db.
  induction actions as [|a actions IH]; intros db; simpl.
  - now rewrite map_id.
  - rewrite IH. rewrite handleApproval_approver_rows by reflexivity.
    unfold update_where. rewrite map_map. apply map_ext. intros r.
    rewrite Nat.eqb_sym. reflexivity.
Qed.

Lemma run_decisions_document_exists env documentId actions db :
  document_status db documentId <> None ->
  document_status (run_decisions env documentId actions db) documentId <> None.
Proof.
  unfold run_decisions. revert db.
  induction actions as [|a actions IH]; intros db H; simpl; [exact H|].
  apply IH.
  rewrite handleApproval_document_status by reflexivity.
  destruct (document_status db documentId); [discriminate|contradiction].
Qed.

Lemma run_decisions_snoc env documentId actions a db :
  run_decisions env documentId (actions ++ [a]) db
  = fst (handleApproval env Faults.none (Action.user a) documentId
           (Action.approverId a) (Action.status a) (Action.comments a)
           (run_decisions env documentId actions db)).
Proof. unfold run_decisions. now rewrite fold_left_app. Qed.

Lemma existsb_Permutation {A : Type} (p : A -> bool) (l1 l2 : list A) :
  Permutation l1 l2 -> existsb p l1 = existsb p l2.
Proof.
  intros H. induction H; simpl.
  - reflexivity.
  - now rewrite IHPermutation.
  - destruct (p x), (p y); reflexivity.
  - congruence.
Qed.

(** One decision per approver row of the document, in the order of
    [actions]: the final status only depends on whether some decision is a
    rejection. *)
Lemma run_decisions_final_status env documentId actions db :
  document_status db documentId <> None ->
  approver_rows db documentId <> [] ->
  Permutation (map Action.approverId actions)
    (map Approver.id (approver_rows db documentId)) ->
  NoDup (map Approver.id (approver_rows db documentId)) ->
  document_status (run_decisions env documentId actions db) documentId
  = Some (if existsb (fun a => Decision.is_rejected (Action.status a)) actions
          then DocumentStatus.rejected
          else DocumentStatus.in_progress).
Proof.
  intros Hdoc Hrows Hperm Hnd.
  assert (Hnd' : NoDup (map Action.approverId actions)).
  { apply Permutation_NoDup with (2 := Hnd). now symmetry. }
  assert (Hne : actions <> []).
  { intros ->. apply Permutation_nil in Hperm.
    destruct (approver_rows db documentId); [now apply Hrows|discriminate]. }
  assert (Hstatuses :
            approver_statuses (run_decisions env documentId actions db) documentId
            = map (fun r => Approver.status (apply_actions env actions r))
                (approver_rows db documentId)).
  { unfold approver_statuses. rewrite run_decisions_approver_rows.
    now rewrite map_map. }
  (* every row has been decided by its action *)
  assert (Hdecided : forall r, In r (approver_rows db documentId) ->
            exists a, In a actions
                      /\ Approver.status (apply_actions env actions r)
                         = Decision.to_status (Action.status a)).
  { intros r Hr.
    assert (Hin : In (Approver.id r) (map Action.approverId actions)).
    { apply Permutation_in with (1 := Permutation_sym Hperm). now apply in_map. }
    apply in_map_iff in Hin. destruct Hin as [a [Hid Ha]].
    exists a. split; [exact Ha|]. now apply apply_actions_status. }
  destruct (exists_last Hne) as [actions' [a Eq]].
  rewrite Eq at 1. rewrite run_decisions_snoc.
  rewrite handleApproval_document_status by reflexivity.
  rewrite <- run_decisions_snoc, <- Eq. rewrite Hstatuses.
  rewrite Nat.eqb_refl.
  destruct (document_status (run_decisions env documentId actions' db) documentId)
    as [cur|] eqn:Ecur.
  2:{ exfalso. revert Ecur. now apply run_decisions_document_exists. }
  simpl. f_equal.
  destruct (existsb (fun a0 => Decision.is_rejected (Action.status a0)) actions)
    eqn:Erej.
  - (* some decision is a rejection: its row is rejected *)
    apply existsb_exists in Erej. destruct Erej as [x [Hx Hxr]].
    assert (Hin : In (Action.approverId x)
                     (map Approver.id (approver_rows db documentId))).
    { apply Permutation_in with (1 := Hperm). now apply in_map. }
    apply in_map_iff in Hin. destruct Hin as [r [Hid Hr]].
    assert (E : existsb is_rejected
                  (map (fun r => Approver.status (apply_actions env actions r))
                     (approver_rows db documentId)) = true).
    { apply existsb_exists.
      exists (Approver.status (apply_actions env actions r)). split.
      - apply in_map_iff. now exists r.
      - rewrite (apply_actions_status env actions Hnd' r x Hx (eq_sym Hid)).
        destruct (Action.status x); [discriminate|reflexivity]. }
    now rewrite E.
  - (* no rejection: every row is approved *)
    assert (Hall : forall a0, In a0 actions -> Action.status a0 = Decision.approved).
    { intros a0 Ha0.
      destruct (Action.status a0) eqn:E0; [reflexivity|].
      assert (existsb (fun a1 => Decision.is_rejected (Action.status a1)) actions
              = true) as Habs.
      { apply existsb_exists. exists a0. split; [exact Ha0|]. now rewrite E0. }
      congruence. }
    assert (E1 : existsb is_rejected
                   (map (fun r => Approver.status (apply_actions env actions r))
                      (approver_rows db documentId)) = false).
    { apply not_true_is_false. intros Habs.
      apply existsb_exists in Habs. destruct Habs as [s [Hs Hsr]].
      apply in_map_iff in Hs. destruct Hs as [r [<- Hr]].
      destruct (Hdecided r Hr) as [a0 [Ha0 Est]].
      rewrite Est, (Hall a0 Ha0) in Hsr. discriminate. }
    assert (E2 : forallb is_approved
                   (map (fun r => Approver.status (apply_actions env actions r))
                      (approver_rows db documentId)) = true).
    { apply forallb_forall. intros s Hs.
      apply in_map_iff in Hs. destruct Hs as [r [<- Hr]].
      destruct (Hdecided r Hr) as [a0 [Ha0 Est]].
      rewrite Est, (Hall a0 Ha0). reflexivity. }
    now rewrite E1, E2.
Qed.

(** C5.  On a document with a fixed, non-empty set of approver rows, one
    decision per approver row recorded one after the other ends in the same
    document status whatever the order: [rejected] when at least one decision
    is a rejection (wherever it stands in the order) and [in_progress] when
    all are approvals. *)
Theorem decisions_order_independent :
  forall (env : Env.t) (documentId : uuid) (db : DB.t)
         (actions1 actions2 : list Action.t),
    document_status db documentId <> None ->
    approver_rows db documentId <> [] ->
    NoDup (map Approver.id (approver_rows db documentId)) ->
    Permutation (map Action.approverId actions1)
      (map Approver.id (approver_rows db documentId)) ->
    Permutation actions1 actions2 ->
    let final :=
      if existsb (fun a => Decision.is_rejected (Action.status a)) actions1
      then DocumentStatus.rejected
      else DocumentStatus.in_progress in
    document_status (run_decisions env documentId actions1 db) documentId
    = Some final
    /\ document_status (run_decisions env documentId actions2 db) documentId
       = Some final.
Proof.
  intros env documentId db actions1 actions2 Hdoc Hrows Hnd Hperm H12 final.
  subst final. split.
  - now apply run_decisions_final_status.
  - rewrite (existsb_Permutation _ _ _ H12).
    apply run_decisions_final_status; try assumption.
    apply Permutation_trans with (2 := Hperm).
    apply Permutation_map. now symmetry.
Qed.

Lemma decisions_order_independent_witness :
  document_status (run_decisions sample_env 0 approve_then_reject large_submitted) 0
  = Some DocumentStatus.rejected
  /\ document_status (run_decisions sample_env 0 reject_then_approve large_submitted) 0
     = Some DocumentStatus.rejected.
Proof.
  apply (decisions_order_independent sample_env 0 large_submitted
           approve_then_reject reject_then_approve).
  - discriminate.
  - discriminate.
  - repeat constructor; simpl; intuition discriminate.
  - apply Permutation_refl.
  - apply perm_swap.
Defined.

(** ** Who may decide *)

(** C6, as stated, fails: [handleApproval] never compares the signed-in
    user with the [user_id] of the targeted row.  [admin_two] (user 102)
    targeting approver row 1, which is assigned to user 101, gets the success
    toast; the row and the document are rejected and a status update is
    appended. *)
Lemma decision_on_foreign_row_is_recorded :
  map Approver.user_id
    (filter (fun a => Nat.eqb (Approver.id a) 1) (DB.approvers large_submitted))
  = [101]
  /\ User.id admin_two = 102
  /\ snd (handleApproval sample_env Faults.none admin_two 0 1 Decision.rejected
            (Some "no") large_submitted)
     = [toast_success "Document rejected successfully"]
  /\ (let db' :=
        fst (handleApproval sample_env Faults.none admin_two 0 1 Decision.rejected
               (Some "no") large_submitted) in
      map Approver.status (DB.approvers db')
      = [ApprovalStatus.rejected; ApprovalStatus.pending]
      /\ document_status db' 0 = Some DocumentStatus.rejected
      /\ List.length (DB.status_updates db')
         = S (List.length (DB.status_updates large_submitted))).
Proof. repeat split. Qed.

(** C6, amended.  The approval page calls [handleApproval] only for an
    approver row of the listed document whose [user_id] is the id of the
    signed-in user; when the document lists no such row, nothing is requested
    from the backend: the database is unchanged and nothing is shown. *)
Theorem onDecision_targets_own_row :
  forall (status : Decision.t) (env : Env.t) (f : Faults.t) (user : User.t)
         (document : PendingDocument.t) (comments : option string) (db : DB.t),
    (exists approver : Approver.t,
        In approver (PendingDocument.approvers document)
        /\ Approver.user_id approver = User.id user
        /\ onDecision status env f user document comments db
           = handleApproval env f user
               (Document.id (PendingDocument.document document))
               (Approver.id approver) status comments db)
    \/ ((forall a, In a (PendingDocument.approvers document) ->
                   Approver.user_id a <> User.id user)
        /\ onDecision status env f user document comments db = (db, [])).
Proof.
  intros status env f user document comments db.
  unfold onDecision.
  destruct (find (fun a => Nat.eqb (Approver.user_id a) (User.id user))
              (PendingDocument.approvers document)) as [approver|] eqn:E.
  - left. exists approver. apply find_some in E. destruct E as [Hin Heq].
    apply Nat.eqb_eq in Heq. repeat split; assumption.
  - right. split; [|reflexivity].
    intros a Hin Heq.
    apply (find_none _ _ E) in Hin. apply Nat.eqb_neq in Hin. contradiction.
Qed.

(** ** Signer outcomes *)




(** The signer table after an outcome whose update the backend executed. *)
Lemma updateSignerStatus_external_signers env f id user signers updateMessage
  signerId status db :
  Faults.external_signers_update f = None ->
  DB.external_signers
    (fst (updateSignerStatus env f id user signers updateMessage signerId status db))
  = update_where (fun s => Nat.eqb (ExternalSigner.id s) signerId)
      (signer_patch env status updateMessage) (DB.external_signers db).
Proof.
  intros H. unfold updateSignerStatus. step_handler. rewrite H. simpl.
  split_cases; reflexivity.
Qed.


(** C3 at a failing input.  Two details pages hold the signer rows of a
    document in status [in_progress] with two pending signers.  After the
    signature of signer 4 was recorded on one page, recording the signature
    of signer 3 on the other page, which still holds signer 4 as pending,
    leaves both stored rows [signed] and the document [in_progress]: the
    status is derived from the rows the page holds, not from the rows as
    stored. *)
Lemma stale_signer_rows_miss_completion :
  document_status large_one_signed 0 = Some DocumentStatus.in_progress
  /\ signer_statuses large_one_signed 0
     = [SigningStatus.pending; SigningStatus.signed]
  /\ map ExternalSigner.status (fetch_signers 0 large_in_progress)
     = [SigningStatus.pending; SigningStatus.pending]
  /\ snd large_both_signed = [toast_success "Status updated successfully"]
  /\ signer_statuses (fst large_both_signed) 0
     = [SigningStatus.signed; SigningStatus.signed]
  /\ document_status (fst large_both_signed) 0 = Some DocumentStatus.in_progress.
Proof. repeat split. Qed.

(** C2 at failing inputs.  Neither handler looks at the status of the
    document.  A document rejected by its approver becomes [completed] when
    the signature of its only signer is recorded on its details page, and a
    completed document becomes [rejected] (or [in_progress]) when a decision
    of its approver is recorded again. *)
Lemma terminal_status_is_left :
  document_status small_rejected 0 = Some DocumentStatus.rejected
  /\ map ExternalSigner.status (fetch_signers 0 small_rejected)
     = [SigningStatus.pending]
  /\ snd (updateSignerStatus sample_env Faults.none 0 member
            (fetch_signers 0 small_rejected) "" 2 Outcome.signed small_rejected)
     = [toast_success "Status updated successfully"]
  /\ document_status
       (fst (updateSignerStatus sample_env Faults.none 0 member
               (fetch_signers 0 small_rejected) "" 2 Outcome.signed
               small_rejected)) 0
     = Some DocumentStatus.completed
  /\ document_status small_completed 0 = Some DocumentStatus.completed
  /\ document_status
       (fst (handleApproval sample_env Faults.none admin_one 0 1
               Decision.rejected None small_completed)) 0
     = Some DocumentStatus.rejected
  /\ document_status
       (fst (handleApproval sample_env Faults.none admin_one 0 1
               Decision.approved None small_completed)) 0
     = Some DocumentStatus.in_progress.
Proof. repeat split. Qed.

(** * Further properties of the pages *)

(** ** The file input of the creation form *)

Lemma handleFileChange_state (selectedFile file : option File.t) :
  fst (handleFileChange selectedFile file) = file
  \/ exists f,
       selectedFile = Some f
       /\ fst (handleFileChange selectedFile file) = Some f
       /\ In (File.type f) ["application/pdf"; "image/jpeg"; "image/png"; "image/jpg"]
       /\ File.size f <= 5 * 1024 * 1024.
Proof.
  destruct selectedFile as [f|]; [|now left].
  unfold handleFileChange.
  destruct (existsb (String.eqb (File.type f))
              ["application/pdf"; "image/jpeg"; "image/png"; "image/jpg"]) eqn:Etype;
    cbn [negb]; [|now left].
  destruct (Nat.ltb (5 * 1024 * 1024) (File.size f)) eqn:Esize; [now left|].
  right. exists f. repeat split.
  - apply existsb_exists in Etype. destruct Etype as [t [Hin Heq]].
    apply String.eqb_eq in Heq. now subst.
  - apply Nat.ltb_ge in Esize. exact Esize.
Qed.

(** X1.  Whatever files are chosen in the file input, in whatever order, the
    file the form holds (and [onSubmit] uploads) is of type PDF, JPEG or PNG
    and of at most 5 * 1024 * 1024 bytes; a refused choice shows one error
    toast and leaves the file chosen before in place. *)
Theorem select_files_keeps_acceptable_file :
  forall (selections : list (option File.t)),
    (forall f, select_files selections None = Some f ->
       In (File.type f) ["application/pdf"; "image/jpeg"; "image/png"; "image/jpg"]
       /\ File.size f <= 5 * 1024 * 1024)
    /\ (forall (refused : File.t) (file : option File.t),
           ~ (In (File.type refused)
                ["application/pdf"; "image/jpeg"; "image/png"; "image/jpg"]
              /\ File.size refused <= 5 * 1024 * 1024) ->
           exists m, handleFileChange (Some refused) file = (file, [toast_error m])).
Proof.
  intros selections. split.
  - assert (H : forall file,
               (forall f, file = Some f ->
                  In (File.type f)
                     ["application/pdf"; "image/jpeg"; "image/png"; "image/jpg"]
                  /\ File.size f <= 5 * 1024 * 1024) ->
               forall f, select_files selections file = Some f ->
                  In (File.type f)
                     ["application/pdf"; "image/jpeg"; "image/png"; "image/jpg"]
                  /\ File.size f <= 5 * 1024 * 1024).
    { unfold select_files.
      induction selections as [|sel selections IH]; intros file Hfile f Hf.
      - now apply Hfile.
      - cbn [fold_left] in Hf. apply IH with (2 := Hf).
        intros g Hg.
        destruct (handleFileChange_state sel file) as [E | (h & _ & E & Ht & Hs)].
        + rewrite E in Hg. now apply Hfile.
        + rewrite E in Hg. injection Hg as <-. now split. }
    apply H. intros f Hf. discriminate.
  - intros refused file Hnot. unfold handleFileChange.
    destruct (existsb (String.eqb (File.type refused))
                ["application/pdf"; "image/jpeg"; "image/png"; "image/jpg"])
      eqn:Etype; cbn [negb]; [|eexists; reflexivity].
    destruct (Nat.ltb (5 * 1024 * 1024) (File.size refused)) eqn:Esize;
      [eexists; reflexivity|].
    exfalso. apply Hnot. split.
    + apply existsb_exists in Etype. destruct Etype as [t [Hin Heq]].
      apply String.eqb_eq in Heq. now subst.
    + apply Nat.ltb_ge in Esize. exact Esize.
Qed.

(** ** Loading the profile after sign-in *)

Lemma fetchUserProfile_firstn (answers : list ProfileAnswer) :
  forall retryCount,
    fetchUserProfile answers retryCount
    = fetchUserProfile (firstn (S (3 - retryCount)) answers) retryCount.
Proof.
  induction answers as [|a answers IH]; intros k; [reflexivity|].
  cbn [firstn fetchUserProfile]. destruct a as [data|code]; [reflexivity|].
  destruct (String.eqb code "PGRST116" && Nat.ltb k 3) eqn:E; [|reflexivity].
  apply andb_prop in E. destruct E as [_ E]. apply Nat.ltb_lt in E.
  rewrite (IH (k + 1)). f_equal.
  replace (3 - k) with (S (3 - (k + 1))) by lia. reflexivity.
Qed.

(** X2.  Loading a profile asks the backend at most four times: answers
    after the fourth never matter. *)
Theorem fetchUserProfile_at_most_four_lookups :
  forall (answers : list ProfileAnswer),
    fetchUserProfile answers 0 = fetchUserProfile (firstn 4 answers) 0.
Proof. intros answers. apply (fetchUserProfile_firstn answers 0). Qed.

Lemma fetchUserProfile_signOut (answers : list ProfileAnswer) :
  forall retryCount,
    retryCount <= 3 ->
    (In auth_signOut (fetchUserProfile answers retryCount)
     <-> exists code rest,
           answers = repeat (profile_error "PGRST116") (3 - retryCount)
                     ++ profile_error code :: rest).
Proof.
  induction answers as [|a answers IH]; intros k Hk.
  - split; [intros []|].
    intros (code & rest & E). destruct (3 - k); discriminate.
  - cbn [fetchUserProfile]. destruct a as [data|code].
    + split.
      * intros [H|[H|[]]]; discriminate.
      * intros (c & rest & E). destruct (3 - k); discriminate.
    + destruct (String.eqb code "PGRST116") eqn:Ecode; cbn [andb].
      * apply String.eqb_eq in Ecode. subst code.
        destruct (Nat.ltb k 3) eqn:Elt.
        -- apply Nat.ltb_lt in Elt.
           replace (3 - k) with (S (3 - (k + 1))) by lia. cbn [repeat app].
           split.
           ++ intros [H|H]; [discriminate|].
              apply IH in H; [|lia]. destruct H as (c & rest & ->).
              now exists c, rest.
           ++ intros (c & rest & E). apply (f_equal (@tl _)) in E.
              cbn [tl] in E. right.
              apply IH; [lia|]. now exists c, rest.
        -- apply Nat.ltb_ge in Elt. assert (k = 3) by lia. subst k.
           cbn. split; [|now left].
           intros _. now exists "PGRST116", answers.
      * destruct (Nat.leb 3 k) eqn:Ele.
        -- apply Nat.leb_le in Ele. assert (k = 3) by lia. subst k.
           cbn. split; [|now left].
           intros _. now exists code, answers.
        -- apply Nat.leb_gt in Ele. cbn [app]. split.
           ++ intros [H|[]]. discriminate.
           ++ intros (c & rest & E).
              replace (3 - k) with (S (3 - (k + 1))) in E by lia.
              cbn [repeat app] in E. injection E as E _.
              subst code. discriminate.
Qed.

(** X3.  The user is signed out again exactly when the first three profile
    lookups answer "no row" (PGRST116) and the fourth answers with an error of
    any kind.  In particular an error other than PGRST116 on one of the first
    three lookups ends the loading without signing out. *)
Theorem fetchUserProfile_signs_out_after_fourth_failure :
  forall (answers : list ProfileAnswer),
    In auth_signOut (fetchUserProfile answers 0)
    <-> exists code rest,
          answers = profile_error "PGRST116" :: profile_error "PGRST116"
                    :: profile_error "PGRST116" :: profile_error code :: rest.
Proof.
  intros answers. apply (fetchUserProfile_signOut answers 0). lia.
Qed.

Lemma fetchUserProfile_setUser (answers : list ProfileAnswer) (u : User.t) :
  forall retryCount,
    retryCount <= 3 ->
    (In (setUser u) (fetchUserProfile answers retryCount)
     <-> exists n rest,
           n <= 3 - retryCount
           /\ answers = repeat (profile_error "PGRST116") n
                        ++ profile_found u :: rest).
Proof.
  induction answers as [|a answers IH]; intros k Hk.
  - split; [intros []|].
    intros (n & rest & _ & E). destruct n; discriminate.
  - cbn [fetchUserProfile]. destruct a as [data|code].
    + split.
      * intros [H|[H|[]]]; [|discriminate]. injection H as ->.
        exists 0, answers. split; [lia|reflexivity].
      * intros (n & rest & _ & E). destruct n; [|discriminate].
        injection E as -> _. now left.
    + destruct (String.eqb code "PGRST116" && Nat.ltb k 3) eqn:E.
      * apply andb_prop in E. destruct E as [Ecode Elt].
        apply String.eqb_eq in Ecode. subst code. apply Nat.ltb_lt in Elt.
        split.
        -- intros [H|H]; [discriminate|].
           apply IH in H; [|lia]. destruct H as (n & rest & Hn & ->).
           exists (S n), rest. split; [lia|reflexivity].
        -- intros (n & rest & Hn & E). destruct n; [discriminate|].
           injection E as E. right. apply IH; [lia|].
           exists n, rest. split; [lia|exact E].
      * split.
        -- intros H. apply in_app_or in H. destruct H as [H|[H|[]]];
             [|discriminate].
           destruct (Nat.leb 3 k); [destruct H as [H|[]]; discriminate|destruct H].
        -- intros (n & rest & Hn & E0). destruct n; [discriminate|].
           injection E0 as E0 _. subst code.
           rewrite String.eqb_refl in E. cbn [andb] in E.
           apply Nat.ltb_ge in E. lia.
Qed.

(** X4.  The profile [u] is put into the auth context exactly when one of
    the first four lookups finds it and every lookup before answered "no row"
    (PGRST116). *)
Theorem fetchUserProfile_sets_user_within_four_lookups :
  forall (answers : list ProfileAnswer) (u : User.t),
    In (setUser u) (fetchUserProfile answers 0)
    <-> exists n rest,
          n <= 3
          /\ answers = repeat (profile_error "PGRST116") n
                       ++ profile_found u :: rest.
Proof.
  intros answers u. apply (fetchUserProfile_setUser answers u 0). lia.
Qed.

(** ** Who is offered as approver *)

(** X5.  After a sign-up that created the auth user and stored the profile,
    the list of users the creation form offers as approvers has grown by the
    new profile when the employee code is one of the four admin codes, and
    is unchanged otherwise. *)
Theorem signUp_then_fetchUsers :
  forall (f : Faults.t) (auth : Response AuthData.t)
         (email password employeeCode fullName : string) (db db' : DB.t)
         (data : AuthData.t) (uid : uuid) (users : list User.t),
    signUp f auth email password employeeCode fullName db = (db', returned data) ->
    AuthData.user data = Some uid ->
    fst (snd (fetchUsers None users db'))
    = fst (snd (fetchUsers None users db))
      ++ (if isAdminCode employeeCode
          then [User.mk uid email employeeCode fullName true]
          else []).
Proof.
  intros f auth email password employeeCode fullName db db' data uid users Hrun Huser.
  unfold signUp in Hrun. revert Hrun. step_handler.
  destruct auth as [d|e]; [|discriminate].
  destruct (AuthData.user d) as [uid'|] eqn:Ed.
  - destruct (Faults.users_insert f); [discriminate|].
    intros H. injection H as <- <-. rewrite Ed in Huser. injection Huser as ->.
    unfold fetchUsers. step_handler. cbn [fst snd DB.users DB.with_users].
    rewrite filter_app. cbn [filter User.is_admin].
    destruct (isAdminCode employeeCode); reflexivity.
  - intros H. injection H as <- <-. congruence.
Qed.

Lemma signUp_then_fetchUsers_witness :
  fst (snd (fetchUsers None []
              (fst (signUp Faults.none (ok (AuthData.mk (Some 101)))
                      "admin1@club.com" "secret" "0001" "Admin One" DB.empty))))
  = [admin_one].
Proof.
  exact (signUp_then_fetchUsers Faults.none (ok (AuthData.mk (Some 101)))
           "admin1@club.com" "secret" "0001" "Admin One" DB.empty _ _ 101 []
           eq_refl eq_refl).
Defined.

(** ** The approvals page *)

Lemma pending_approvals_of_In (user : User.t) (db : DB.t) (entry : PendingDocument.t) :
  In entry (pending_approvals_of user db)
  <-> In (PendingDocument.document entry) (DB.documents db)
      /\ Document.status (PendingDocument.document entry)
         = DocumentStatus.pending_approval
      /\ PendingDocument.approvers entry
         = filter
             (fun a =>
                Nat.eqb (Approver.document_id a)
                  (Document.id (PendingDocument.document entry))
                && Nat.eqb (Approver.user_id a) (User.id user)
                && ApprovalStatus.eqb (Approver.status a) ApprovalStatus.pending)
             (DB.approvers db)
      /\ PendingDocument.approvers entry <> [].
Proof.
  unfold pending_approvals_of. rewrite filter_In, in_map_iff. split.
  - intros [(d & <- & Hd) Hne]. apply filter_In in Hd. destruct Hd as [Hd Hst].
    apply DocumentStatus_eqb_eq in Hst. cbn [PendingDocument.document
      PendingDocument.approvers] in *.
    repeat split; try assumption.
    intros E. rewrite E in Hne. discriminate.
  - intros (Hd & Hst & Hrows & Hne). split.
    + exists (PendingDocument.document entry). split.
      * destruct entry as [d rows]. cbn in *. now rewrite Hrows.
      * apply filter_In. split; [exact Hd|]. now apply DocumentStatus_eqb_eq.
    + destruct (PendingDocument.approvers entry); [now elim Hne|reflexivity].
Qed.

Lemma pending_row_facts (user : User.t) (docId : uuid) (db : DB.t) (a : Approver.t) :
  In a (filter
          (fun a =>
             Nat.eqb (Approver.document_id a) docId
             && Nat.eqb (Approver.user_id a) (User.id user)
             && ApprovalStatus.eqb (Approver.status a) ApprovalStatus.pending)
          (DB.approvers db))
  <-> In a (DB.approvers db)
      /\ Approver.document_id a = docId
      /\ Approver.user_id a = User.id user
      /\ Approver.status a = ApprovalStatus.pending.
Proof.
  rewrite filter_In, !andb_true_iff, !Nat.eqb_eq, ApprovalStatus_eqb_eq.
  tauto.
Qed.

(** X6.  The approvals page lists a document for a user exactly when the
    document is stored with status [pending_approval] and some approver row
    of it is assigned to that user and still pending. *)
Theorem fetchPendingApprovals_lists_exactly :
  forall (user : User.t) (old : list PendingDocument.t) (db : DB.t)
         (d : Document.t),
    (exists entry,
        In entry (fst (snd (fetchPendingApprovals None user old db)))
        /\ PendingDocument.document entry = d)
    <-> In d (DB.documents db)
        /\ Document.status d = DocumentStatus.pending_approval
        /\ exists a,
             In a (DB.approvers db)
             /\ Approver.document_id a = Document.id d
             /\ Approver.user_id a = User.id user
             /\ Approver.status a = ApprovalStatus.pending.
Proof.
  intros user old db d.
  unfold fetchPendingApprovals. step_handler. cbn [fst snd]. split.
  - intros (entry & Hin & <-). apply pending_approvals_of_In in Hin.
    destruct Hin as (Hd & Hst & Hrows & Hne). repeat split; try assumption.
    destruct (PendingDocument.approvers entry) as [|a rows] eqn:E; [now elim Hne|].
    exists a. apply (pending_row_facts user _ db a). rewrite <- Hrows. now left.
  - intros (Hd & Hst & a & Ha).
    apply (pending_row_facts user (Document.id d) db a) in Ha.
    eexists (PendingDocument.mk d _). split; [|reflexivity].
    apply pending_approvals_of_In. cbn [PendingDocument.document
      PendingDocument.approvers].
    repeat split; try assumption.
    intros E. rewrite E in Ha. destruct Ha.
Qed.

Lemma listed_entry_target (user : User.t) (db : DB.t) (entry : PendingDocument.t) :
  In entry (pending_approvals_of user db) ->
  forall (status : Decision.t) (env : Env.t) (f : Faults.t)
         (comments : option string) (db0 : DB.t),
  exists approver : Approver.t,
    In approver (DB.approvers db)
    /\ Approver.document_id approver
       = Document.id (PendingDocument.document entry)
    /\ Approver.user_id approver = User.id user
    /\ Approver.status approver = ApprovalStatus.pending
    /\ onDecision status env f user entry comments db0
       = handleApproval env f user
           (Document.id (PendingDocument.document entry))
           (Approver.id approver) status comments db0.
Proof.
  intros Hin status env f comments db0.
  apply pending_approvals_of_In in Hin.
  destruct Hin as (Hd & Hst & Hrows & Hne).
  unfold onDecision.
  destruct (find (fun a => Nat.eqb (Approver.user_id a) (User.id user))
              (PendingDocument.approvers entry)) as [approver|] eqn:E.
  - exists approver. apply find_some in E. destruct E as [Hin _].
    rewrite Hrows in Hin. apply pending_row_facts in Hin.
    destruct Hin as (H1 & H2 & H3 & H4). repeat split; assumption.
  - exfalso. destruct (PendingDocument.approvers entry) as [|a rows] eqn:Ea;
      [now elim Hne|].
    assert (Ha : In a (a :: rows)) by now left.
    pose proof (find_none _ _ E a Ha) as Hneq. cbn beta in Hneq.
    rewrite Hrows in Ha. apply pending_row_facts in Ha.
    destruct Ha as (_ & _ & Hu & _). rewrite Hu, Nat.eqb_refl in Hneq. discriminate.
Qed.

(** X7.  For an entry the approvals page lists, the approve and reject
    buttons always reach [handleApproval], with the id of the document and
    the id of an approver row that is stored, belongs to that document, is
    assigned to the signed-in user and is pending. *)
Theorem listed_entry_decision_targets_pending_own_row :
  forall (user : User.t) (old : list PendingDocument.t) (db : DB.t)
         (entry : PendingDocument.t),
    In entry (fst (snd (fetchPendingApprovals None user old db))) ->
    forall (status : Decision.t) (env : Env.t) (f : Faults.t)
           (comments : option string) (db0 : DB.t),
    exists approver : Approver.t,
      In approver (DB.approvers db)
      /\ Approver.document_id approver
         = Document.id (PendingDocument.document entry)
      /\ Approver.user_id approver = User.id user
      /\ Approver.status approver = ApprovalStatus.pending
      /\ onDecision status env f user entry comments db0
         = handleApproval env f user
             (Document.id (PendingDocument.document entry))
             (Approver.id approver) status comments db0.
Proof.
  intros user old db entry Hin.
  unfold fetchPendingApprovals in Hin. revert Hin. step_handler. cbn [fst snd].
  apply listed_entry_target.
Qed.

Lemma listed_entry_decision_targets_pending_own_row_witness :
  exists approver : Approver.t,
    In approver (DB.approvers large_submitted)
    /\ Approver.user_id approver = 101
    /\ onApprove sample_env Faults.none admin_one admin_one_entry (Some "fine")
         large_submitted
       = handleApproval sample_env Faults.none admin_one 0 (Approver.id approver)
           Decision.approved (Some "fine") large_submitted.
Proof.
  destruct (listed_entry_decision_targets_pending_own_row admin_one []
              large_submitted admin_one_entry (or_introl eq_refl)
              Decision.approved sample_env Faults.none (Some "fine") large_submitted)
    as (approver & H1 & _ & H2 & _ & H3).
  exists approver. repeat split; assumption.
Defined.

(** X8.  When an approver row is identified by its document and user (the
    table's uniqueness constraint), a decision made from a listed entry whose
    approver update is executed takes the document off that user's list:
    reloading the approvals page no longer offers it, whatever the decision. *)
Theorem decided_document_leaves_pending_list :
  forall (status : Decision.t) (env : Env.t) (f : Faults.t) (user : User.t)
         (comments : option string) (db : DB.t) (entry : PendingDocument.t),
    Faults.approvers_update f = None ->
    (forall r1 r2, In r1 (DB.approvers db) -> In r2 (DB.approvers db) ->
       Approver.document_id r1 = Approver.document_id r2 ->
       Approver.user_id r1 = Approver.user_id r2 ->
       Approver.id r1 = Approver.id r2) ->
    In entry (pending_approvals_of user db) ->
    forall entry',
      In entry' (pending_approvals_of user
                   (fst (onDecision status env f user entry comments db))) ->
      Document.id (PendingDocument.document entry')
      <> Document.id (PendingDocument.document entry).
Proof.
  intros status env f user comments db entry Hf Huniq Hentry entry' Hin' Heq.
  destruct (listed_entry_target user db entry Hentry status env f comments db)
    as (a & Ha & Hdoc & Huser & _ & Hrun).
  rewrite Hrun in Hin'. apply pending_approvals_of_In in Hin'.
  destruct Hin' as (_ & _ & Hrows & Hne).
  destruct (PendingDocument.approvers entry') as [|a' rows] eqn:E; [now elim Hne|].
  assert (Ha' : In a' (a' :: rows)) by now left.
  rewrite Hrows in Ha'. apply pending_row_facts in Ha'.
  destruct Ha' as (Hin & Hdoc' & Huser' & Hpending).
  rewrite handleApproval_approvers in Hin by exact Hf.
  unfold update_where in Hin. apply in_map_iff in Hin.
  destruct Hin as (r & Hr & Hrin).
  destruct (Nat.eqb (Approver.id r) (Approver.id a)) eqn:Eid.
  - subst a'. cbn in Hpending. destruct status; discriminate.
  - subst a'. apply Nat.eqb_neq in Eid. apply Eid.
    apply Huniq; try assumption; congruence.
Qed.

Lemma decided_document_leaves_pending_list_witness :
  Forall (fun entry' => Document.id (PendingDocument.document entry') <> 0)
    (pending_approvals_of admin_one
       (fst (onApprove sample_env Faults.none admin_one admin_one_entry
               None large_submitted))).
Proof.
  apply Forall_forall.
  apply (decided_document_leaves_pending_list Decision.approved sample_env
           Faults.none admin_one None large_submitted admin_one_entry).
  - reflexivity.
  - intros r1 r2 H1 H2.
    cbn in H1, H2.
    destruct H1 as [<-|[<-|[]]], H2 as [<-|[<-|[]]]; cbn; congruence.
  - cbn. now left.
Defined.

(** ** Refused requests in the middle of a handler *)

(** The [documents] table after a decision whose three checked requests are
    executed. *)
Lemma handleApproval_documents env f user documentId approverId status comments db :
  Faults.approvers_update f = None ->
  Faults.approvers_select f = None ->
  Faults.documents_update f = None ->
  DB.documents (fst (handleApproval env f user documentId approverId status comments db))
  = let statuses :=
      map Approver.status
        (update_where (fun a => Nat.eqb (Approver.id a) approverId)
           (approver_patch env status comments) (approver_rows db documentId)) in
    if existsb is_rejected statuses then
      update_where (fun d => Nat.eqb (Document.id d) documentId)
        (Document.with_status DocumentStatus.rejected) (DB.documents db)
    else if forallb is_approved statuses then
      update_where (fun d => Nat.eqb (Document.id d) documentId)
        (Document.with_status DocumentStatus.in_progress) (DB.documents db)
    else DB.documents db.
Proof.
  intros Hu Hs Hd. cbv zeta. unfold approver_rows.
  rewrite <- (filter_update_where
                (fun a => Nat.eqb (Approver.document_id a) documentId)
                (fun a => Nat.eqb (Approver.id a) approverId)
                (approver_patch env status comments) (DB.approvers db))
    by reflexivity.
  unfold handleApproval. step_handler.
  rewrite Hu, Hs, Hd. cbn [fst snd DB.approvers DB.with_approvers].
  fold is_rejected. fold is_approved.
  destruct (existsb is_rejected _); cbn -[update_where];
    [destruct (Faults.status_updates_insert f); reflexivity|].
  destruct (forallb is_approved _); cbn -[update_where];
    destruct (Faults.status_updates_insert f); reflexivity.
Qed.

(** X9.  A decision is not atomic.  When the approver update was executed
    and the backend then refuses the re-read of the approver rows, or refuses
    the document update that the re-read calls for, the decision stays stored
    on the approver row while no document changes and no status update is
    logged; the handler shows "Failed to update approval". *)
Theorem handleApproval_partial_decision :
  forall (env : Env.t) (f : Faults.t) (user : User.t)
         (documentId approverId : uuid) (status : Decision.t)
         (comments : option string) (db : DB.t),
    Faults.approvers_update f = None ->
    Faults.approvers_select f <> None
    \/ (Faults.documents_update f <> None
        /\ let statuses :=
             map Approver.status
               (update_where (fun a => Nat.eqb (Approver.id a) approverId)
                  (approver_patch env status comments)
                  (approver_rows db documentId)) in
           existsb is_rejected statuses = true
           \/ forallb is_approved statuses = true) ->
    let r := handleApproval env f user documentId approverId status comments db in
    snd r = [toast_error "Failed to update approval"]
    /\ DB.approvers (fst r)
       = update_where (fun a => Nat.eqb (Approver.id a) approverId)
           (approver_patch env status comments) (DB.approvers db)
    /\ DB.documents (fst r) = DB.documents db
    /\ DB.status_updates (fst r) = DB.status_updates db.
Proof.
  intros env f user documentId approverId status comments db Hu H r. subst r.
  split; [|split; [now apply handleApproval_approvers|]].
  - revert H. cbv zeta. unfold approver_rows.
    rewrite <- (filter_update_where
                  (fun a => Nat.eqb (Approver.document_id a) documentId)
                  (fun a => Nat.eqb (Approver.id a) approverId)
                  (approver_patch env status comments) (DB.approvers db))
      by reflexivity.
    unfold handleApproval. step_handler. rewrite Hu.
    cbn [fst snd DB.approvers DB.with_approvers].
    fold is_rejected. fold is_approved.
    destruct (Faults.approvers_select f); [reflexivity|].
    intros [H|[Hd H]]; [now elim H|].
    destruct (Faults.documents_update f); [|now elim Hd].
    destruct (existsb is_rejected _); [reflexivity|].
    destruct (forallb is_approved _); [reflexivity|].
    destruct H; discriminate.
  - revert H. cbv zeta. unfold approver_rows.
    rewrite <- (filter_update_where
                  (fun a => Nat.eqb (Approver.document_id a) documentId)
                  (fun a => Nat.eqb (Approver.id a) approverId)
                  (approver_patch env status comments) (DB.approvers db))
      by reflexivity.
    unfold handleApproval. step_handler. rewrite Hu.
    cbn [fst snd DB.approvers DB.with_approvers].
    fold is_rejected. fold is_approved.
    destruct (Faults.approvers_select f); [split; reflexivity|].
    intros [H|[Hd H]]; [now elim H|].
    destruct (Faults.documents_update f); [|now elim Hd].
    destruct (existsb is_rejected _); [split; reflexivity|].
    destruct (forallb is_approved _); [split; reflexivity|].
    destruct H; discriminate.
Qed.

Lemma handleApproval_partial_decision_witness :
  let r := handleApproval sample_env only_approver_update admin_one 0 1
             Decision.rejected (Some "no") small_submitted in
  snd r = [toast_error "Failed to update approval"]
  /\ map Approver.status (DB.approvers (fst r)) = [ApprovalStatus.rejected]
  /\ document_status (fst r) 0 = Some DocumentStatus.pending_approval.
Proof.
  destruct (handleApproval_partial_decision sample_env only_approver_update
              admin_one 0 1 Decision.rejected (Some "no") small_submitted eq_refl)
    as (H1 & H2 & H3 & _).
  - left. discriminate.
  - cbv zeta. split; [exact H1|]. split.
    + rewrite H2. reflexivity.
    + unfold document_status. rewrite H3. reflexivity.
Defined.

(** X10.  Once the signer row update is executed, [updateSignerStatus]
    reports success even when the backend refuses the update of the
    document: the signer row carries the outcome, no document changes
    (also when every signer has signed) and "Status updated successfully" is
    shown. *)
Theorem updateSignerStatus_swallows_document_failure :
  forall (env : Env.t) (f : Faults.t) (id : uuid) (user : User.t)
         (signers : list ExternalSigner.t) (updateMessage : string)
         (signerId : uuid) (status : Outcome.t) (db : DB.t),
    Faults.external_signers_update f = None ->
    Faults.documents_update f <> None ->
    let r := updateSignerStatus env f id user signers updateMessage signerId
               status db in
    snd r = [toast_success "Status updated successfully"]
    /\ DB.external_signers (fst r)
       = update_where (fun s => Nat.eqb (ExternalSigner.id s) signerId)
           (signer_patch env status updateMessage) (DB.external_signers db)
    /\ DB.documents (fst r) = DB.documents db.
Proof.
  intros env f id user signers updateMessage signerId status db Hu Hd r. subst r.
  split; [|split; [now apply updateSignerStatus_external_signers|]].
  - unfold updateSignerStatus. step_handler. rewrite Hu.
    destruct (Faults.documents_update f); [|now elim Hd].
    destruct (Faults.status_updates_insert f); cbn [fst snd];
      (destruct (forallb _ _); [|destruct (existsb _ _)]); reflexivity.
  - unfold updateSignerStatus. step_handler. rewrite Hu.
    destruct (Faults.documents_update f); [|now elim Hd].
    destruct (Faults.status_updates_insert f); cbn [fst snd];
      (destruct (forallb _ _); [|destruct (existsb _ _)]); reflexivity.
Qed.

Lemma updateSignerStatus_swallows_document_failure_witness :
  let r := updateSignerStatus sample_env documents_update_down 0 member
             (fetch_signers 0 small_in_progress) "" 2 Outcome.signed
             small_in_progress in
  snd r = [toast_success "Status updated successfully"]
  /\ map ExternalSigner.status (DB.external_signers (fst r))
     = [SigningStatus.signed]
  /\ map Document.status (DB.documents (fst r)) = [DocumentStatus.in_progress].
Proof.
  destruct (updateSignerStatus_swallows_document_failure sample_env
              documents_update_down 0 member (fetch_signers 0 small_in_progress)
              "" 2 Outcome.signed small_in_progress eq_refl)
    as (H1 & H2 & H3).
  - discriminate.
  - cbv zeta. split; [exact H1|]. split.
    + rewrite H2. reflexivity.
    + rewrite H3. reflexivity.
Defined.

(** X11.  When the file was uploaded and the backend refuses the insert of
    the document row, the uploaded file stays in the storage bucket although
    no row of any table refers to it; the handler shows the backend's
    message (or "Failed to create document"). *)
Theorem onSubmit_leaves_uploaded_file :
  forall (env : Env.t) (f : Faults.t) (user : User.t) (file : File.t)
         (data : CreateDocumentFormData.t) (db : DB.t) (e : error),
    Faults.storage_upload f = None ->
    Faults.documents_insert f = Some e ->
    let r := onSubmit env f user (Some file) data db in
    snd r = [toast_error (or_else e "Failed to create document")]
    /\ DB.storage (fst r)
       = DB.storage db
         ++ [("documents", "documents/" ^^ Env.now_ms env ^^ "_" ^^ File.name file)]
    /\ DB.documents (fst r) = DB.documents db
    /\ DB.approvers (fst r) = DB.approvers db
    /\ DB.external_signers (fst r) = DB.external_signers db
    /\ DB.status_updates (fst r) = DB.status_updates db.
Proof.
  intros env f user file data db e Hup Hdoc r. subst r.
  unfold onSubmit. step_handler. rewrite Hup, Hdoc. cbn.
  repeat split.
Qed.

Lemma onSubmit_leaves_uploaded_file_witness :
  let r := onSubmit sample_env documents_insert_down member (Some sample_file)
             small_form DB.empty in
  snd r = [toast_error "permission denied"]
  /\ DB.storage (fst r) = [("documents", "documents/1735689600000_budget.pdf")]
  /\ DB.documents (fst r) = [].
Proof.
  destruct (onSubmit_leaves_uploaded_file sample_env documents_insert_down member
              sample_file small_form DB.empty "permission denied" eq_refl eq_refl)
    as (H1 & H2 & H3 & _).
  cbv zeta. repeat split; assumption.
Defined.

(** ** What the handlers never touch *)

Ltac grows_by_at_most_one :=
  eexists; split;
  [first [reflexivity | symmetry; apply app_nil_r] | simpl; lia].

(** X12.  The activity log is append-only: whatever the backend answers, a
    submission, a decision and a signer outcome each leave the existing
    status updates as they are and append at most one. *)
Theorem status_updates_append_only :
  forall (env : Env.t) (f : Faults.t) (user : User.t) (db : DB.t),
    (forall file data,
        exists l,
          DB.status_updates (fst (handleSubmit env f user file data db))
          = DB.status_updates db ++ l
          /\ List.length l <= 1)
    /\ (forall documentId approverId status comments,
           exists l,
             DB.status_updates
               (fst (handleApproval env f user documentId approverId status
                       comments db))
             = DB.status_updates db ++ l
             /\ List.length l <= 1)
    /\ (forall id signers updateMessage signerId status,
           exists l,
             DB.status_updates
               (fst (updateSignerStatus env f id user signers updateMessage
                       signerId status db))
             = DB.status_updates db ++ l
             /\ List.length l <= 1).
Proof.
  intros env f user db. split; [|split].
  - intros file data. unfold handleSubmit.
    destruct (createDocumentSchema data); [|cbn; grows_by_at_most_one].
    unfold onSubmit. destruct file as [file|]; [|cbn; grows_by_at_most_one].
    step_handler.
    destruct (Faults.storage_upload f); cbn; [grows_by_at_most_one|].
    destruct (Faults.documents_insert f); cbn; [grows_by_at_most_one|].
    destruct (Faults.approvers_insert f); cbn; [grows_by_at_most_one|].
    destruct (Faults.external_signers_insert f); cbn; [grows_by_at_most_one|].
    destruct (Faults.status_updates_insert f); cbn; grows_by_at_most_one.
  - intros documentId approverId status comments.
    unfold handleApproval. step_handler.
    destruct (Faults.approvers_update f); cbn -[update_where];
      [grows_by_at_most_one|].
    destruct (Faults.approvers_select f); cbn -[update_where];
      [grows_by_at_most_one|].
    destruct (existsb _ _); cbn -[update_where];
      [destruct (Faults.documents_update f); cbn -[update_where];
       [grows_by_at_most_one|];
       destruct (Faults.status_updates_insert f); cbn -[update_where];
       grows_by_at_most_one|].
    destruct (forallb _ _); cbn -[update_where];
      [destruct (Faults.documents_update f); cbn -[update_where];
       [grows_by_at_most_one|]|];
      destruct (Faults.status_updates_insert f); cbn -[update_where];
      grows_by_at_most_one.
  - intros id signers updateMessage signerId status.
    unfold updateSignerStatus. step_handler.
    destruct (Faults.external_signers_update f); cbn -[update_where];
      [grows_by_at_most_one|].
    destruct (Faults.status_updates_insert f); cbn -[update_where];
      (destruct (forallb _ _); [|destruct (existsb _ _)]);
      cbn -[update_where];
      try (destruct (Faults.documents_update f); cbn -[update_where]);
      grows_by_at_most_one.
Qed.

Lemma map_update_where_invariant {R K : Type} (key : R -> K) (matches : R -> bool)
  (patch : R -> R) (rows : list R) :
  (forall r, key (patch r) = key r) ->
  map key (update_where matches patch rows) = map key rows.
Proof.
  intros H. unfold update_where. rewrite map_map. apply map_ext.
  intros r. destruct (matches r); [apply H|reflexivity].
Qed.

Lemma handleApproval_documents_shape env f user documentId approverId status
  comments db :
  DB.documents (fst (handleApproval env f user documentId approverId status comments db))
  = DB.documents db
  \/ exists s,
       DB.documents
         (fst (handleApproval env f user documentId approverId status comments db))
       = update_where (fun d => Nat.eqb (Document.id d) documentId)
           (Document.with_status s) (DB.documents db).
Proof.
  unfold handleApproval. step_handler.
  destruct (Faults.approvers_update f); cbn -[update_where]; [now left|].
  destruct (Faults.approvers_select f); cbn -[update_where]; [now left|].
  destruct (existsb _ _); cbn -[update_where].
  - destruct (Faults.documents_update f); cbn -[update_where]; [now left|].
    destruct (Faults.status_updates_insert f); cbn -[update_where];
      right; eexists; reflexivity.
  - destruct (forallb _ _); cbn -[update_where].
    + destruct (Faults.documents_update f); cbn -[update_where]; [now left|].
      destruct (Faults.status_updates_insert f); cbn -[update_where];
        right; eexists; reflexivity.
    + destruct (Faults.status_updates_insert f); now left.
Qed.

Lemma updateSignerStatus_documents_shape env f id user signers updateMessage
  signerId status db :
  DB.documents
    (fst (updateSignerStatus env f id user signers updateMessage signerId status db))
  = DB.documents db
  \/ exists s,
       DB.documents
         (fst (updateSignerStatus env f id user signers updateMessage signerId
                 status db))
       = update_where (fun d => Nat.eqb (Document.id d) id)
           (Document.with_status s) (DB.documents db).
Proof.
  unfold updateSignerStatus. step_handler.
  destruct (Faults.external_signers_update f); cbn -[update_where]; [now left|].
  destruct (Faults.status_updates_insert f); cbn -[update_where];
    (destruct (forallb _ _); [|destruct (existsb _ _)]);
    cbn -[update_where];
    try (destruct (Faults.documents_update f); cbn -[update_where]);
    first [now left | right; eexists; reflexivity].
Qed.

Lemma handleApproval_approvers_shape env f user documentId approverId status
  comments db :
  DB.approvers (fst (handleApproval env f user documentId approverId status comments db))
  = DB.approvers db
  \/ DB.approvers
       (fst (handleApproval env f user documentId approverId status comments db))
     = update_where (fun a => Nat.eqb (Approver.id a) approverId)
         (approver_patch env status comments) (DB.approvers db).
Proof.
  destruct (Faults.approvers_update f) eqn:E.
  - left. unfold handleApproval. step_handler. now rewrite E.
  - right. now apply handleApproval_approvers.
Qed.

Lemma updateSignerStatus_signers_shape env f id user signers updateMessage
  signerId status db :
  DB.external_signers
    (fst (updateSignerStatus env f id user signers updateMessage signerId status db))
  = DB.external_signers db
  \/ DB.external_signers
       (fst (updateSignerStatus env f id user signers updateMessage signerId
               status db))
     = update_where (fun s => Nat.eqb (ExternalSigner.id s) signerId)
         (signer_patch env status updateMessage) (DB.external_signers db).
Proof.
  destruct (Faults.external_signers_update f) eqn:E.
  - left. unfold updateSignerStatus. step_handler. now rewrite E.
  - right. now apply updateSignerStatus_external_signers.
Qed.

(** X13.  Whatever the backend answers, a decision changes nothing but the
    status, comments and approval time of approver rows and the status of
    documents: it adds or removes no approver or document row, re-assigns
    and re-orders no approver, keeps title, description, file URL and creator
    of every document, and leaves the external signers and the stored files
    alone. *)
Theorem handleApproval_frame :
  forall (env : Env.t) (f : Faults.t) (user : User.t)
         (documentId approverId : uuid) (status : Decision.t)
         (comments : option string) (db : DB.t),
    let db' :=
      fst (handleApproval env f user documentId approverId status comments db) in
    DB.external_signers db' = DB.external_signers db
    /\ DB.storage db' = DB.storage db
    /\ map (fun a => (Approver.id a, Approver.document_id a, Approver.user_id a,
                      Approver.order a)) (DB.approvers db')
       = map (fun a => (Approver.id a, Approver.document_id a, Approver.user_id a,
                        Approver.order a)) (DB.approvers db)
    /\ map (fun d => (Document.id d, Document.title d, Document.description d,
                      Document.document_url d, Document.created_by d))
           (DB.documents db')
       = map (fun d => (Document.id d, Document.title d, Document.description d,
                        Document.document_url d, Document.created_by d))
           (DB.documents db).
Proof.
  intros env f user documentId approverId status comments db db'. subst db'.
  split; [|split; [|split]].
  - unfold handleApproval. step_handler.
    destruct (Faults.approvers_update f); cbn -[update_where]; [reflexivity|].
    destruct (Faults.approvers_select f); cbn -[update_where]; [reflexivity|].
    split_cases; reflexivity.
  - unfold handleApproval. step_handler.
    destruct (Faults.approvers_update f); cbn -[update_where]; [reflexivity|].
    destruct (Faults.approvers_select f); cbn -[update_where]; [reflexivity|].
    split_cases; reflexivity.
  - destruct (handleApproval_approvers_shape env f user documentId approverId
                status comments db) as [E|E]; rewrite E; [reflexivity|].
    now apply map_update_where_invariant.
  - destruct (handleApproval_documents_shape env f user documentId approverId
                status comments db) as [E|[s E]]; rewrite E; [reflexivity|].
    now apply map_update_where_invariant.
Qed.

(** X14.  Whatever the backend answers, a signer outcome changes nothing
    but status, signing time and comments of signer rows and the status of
    documents: no signer or document row is added or removed, names,
    designations and order of the signers stay, and the approver rows and
    stored files are left alone. *)
Theorem updateSignerStatus_frame :
  forall (env : Env.t) (f : Faults.t) (id : uuid) (user : User.t)
         (signers : list ExternalSigner.t) (updateMessage : string)
         (signerId : uuid) (status : Outcome.t) (db : DB.t),
    let db' :=
      fst (updateSignerStatus env f id user signers updateMessage signerId
             status db) in
    DB.approvers db' = DB.approvers db
    /\ DB.storage db' = DB.storage db
    /\ map (fun s => (ExternalSigner.id s, ExternalSigner.document_id s,
                      ExternalSigner.name s, ExternalSigner.designation s,
                      ExternalSigner.order s)) (DB.external_signers db')
       = map (fun s => (ExternalSigner.id s, ExternalSigner.document_id s,
                        ExternalSigner.name s, ExternalSigner.designation s,
                        ExternalSigner.order s)) (DB.external_signers db)
    /\ map (fun d => (Document.id d, Document.title d, Document.description d,
                      Document.document_url d, Document.created_by d))
           (DB.documents db')
       = map (fun d => (Document.id d, Document.title d, Document.description d,
                        Document.document_url d, Document.created_by d))
           (DB.documents db).
Proof.
  intros env f id user signers updateMessage signerId status db db'. subst db'.
  split; [|split; [|split]].
  - unfold updateSignerStatus. step_handler.
    destruct (Faults.external_signers_update f); cbn -[update_where];
      [reflexivity|].
    split_cases; reflexivity.
  - unfold updateSignerStatus. step_handler.
    destruct (Faults.external_signers_update f); cbn -[update_where];
      [reflexivity|].
    split_cases; reflexivity.
  - destruct (updateSignerStatus_signers_shape env f id user signers
                updateMessage signerId status db) as [E|E]; rewrite E;
      [reflexivity|].
    now apply map_update_where_invariant.
  - destruct (updateSignerStatus_documents_shape env f id user signers
                updateMessage signerId status db) as [E|[s E]]; rewrite E;
      [reflexivity|].
    now apply map_update_where_invariant.
Qed.

(** ** Repeating a decision *)

Lemma update_where_idempotent {R : Type} (matches : R -> bool) (patch : R -> R)
  (rows : list R) :
  (forall r, matches (patch r) = matches r) ->
  (forall r, patch (patch r) = patch r) ->
  update_where matches patch (update_where matches patch rows)
  = update_where matches patch rows.
Proof.
  intros Hm Hp. unfold update_where. rewrite map_map. apply map_ext. intros r.
  destruct (matches r) eqn:E.
  - rewrite Hm, E. apply Hp.
  - now rewrite E.
Qed.

Lemma repeated_patch_statuses env1 env2 approverId status comments1 comments2
  (rows : list Approver.t) :
  map Approver.status
    (update_where (fun a => Nat.eqb (Approver.id a) approverId)
       (approver_patch env2 status comments2)
       (update_where (fun a => Nat.eqb (Approver.id a) approverId)
          (approver_patch env1 status comments1) rows))
  = map Approver.status
      (update_where (fun a => Nat.eqb (Approver.id a) approverId)
         (approver_patch env1 status comments1) rows).
Proof.
  unfold update_where. rewrite !map_map. apply map_ext. intros r.
  destruct (Nat.eqb (Approver.id r) approverId) eqn:E.
  - cbn [approver_patch Approver.id]. rewrite E. reflexivity.
  - now rewrite E.
Qed.

(** X15.  Recording the same decision on the same approver row a second
    time (a double click, a second browser tab), both calls being executed,
    changes no approver status and no document: only comments, the approval
    time and the activity log can differ. *)
Theorem repeated_decision_changes_no_status :
  forall (env1 env2 : Env.t) (f1 f2 : Faults.t) (user1 user2 : User.t)
         (documentId approverId : uuid) (status : Decision.t)
         (comments1 comments2 : option string) (db : DB.t),
    Faults.approvers_update f1 = None ->
    Faults.approvers_select f1 = None ->
    Faults.documents_update f1 = None ->
    Faults.approvers_update f2 = None ->
    Faults.approvers_select f2 = None ->
    Faults.documents_update f2 = None ->
    let db1 :=
      fst (handleApproval env1 f1 user1 documentId approverId status comments1 db) in
    let db2 :=
      fst (handleApproval env2 f2 user2 documentId approverId status comments2 db1) in
    map Approver.status (DB.approvers db2) = map Approver.status (DB.approvers db1)
    /\ DB.documents db2 = DB.documents db1.
Proof.
  intros env1 env2 f1 f2 user1 user2 documentId approverId status comments1
    comments2 db Hu1 Hs1 Hd1 Hu2 Hs2 Hd2 db1 db2.
  subst db2. split.
  - rewrite handleApproval_approvers by exact Hu2.
    subst db1. rewrite handleApproval_approvers by exact Hu1.
    apply repeated_patch_statuses.
  - rewrite handleApproval_documents by assumption. cbv zeta.
    subst db1. rewrite handleApproval_approver_rows by exact Hu1.
    rewrite repeated_patch_statuses.
    rewrite handleApproval_documents by assumption. cbv zeta.
    destruct (existsb is_rejected _).
    + now apply update_where_idempotent.
    + destruct (forallb is_approved _); [|reflexivity].
      now apply update_where_idempotent.
Qed.

Lemma repeated_decision_changes_no_status_witness :
  let db1 :=
    fst (handleApproval sample_env Faults.none admin_one 0 1 Decision.approved
           (Some "fine") large_submitted) in
  let db2 :=
    fst (handleApproval sample_env Faults.none admin_one 0 1 Decision.approved
           None db1) in
  map Approver.status (DB.approvers db2) = map Approver.status (DB.approvers db1)
  /\ DB.documents db2 = DB.documents db1.
Proof.
  exact (repeated_decision_changes_no_status sample_env sample_env Faults.none
           Faults.none admin_one admin_one 0 1 Decision.approved (Some "fine")
           None large_submitted eq_refl eq_refl eq_refl eq_refl eq_refl eq_refl).
Defined.

(** ** The log entry of a signer outcome *)

(** X16.  A signer outcome whose signer update and log insert are executed
    appends exactly one status update for the page's document and user: of
    type [signature_received] for a signature and [rejected] for a
    rejection, with the typed message, or "Signature signed" /
    "Signature rejected" when the message box is empty; this does not depend
    on whether the document update succeeds. *)
Theorem updateSignerStatus_appends_status_update :
  forall (env : Env.t) (f : Faults.t) (id : uuid) (user : User.t)
         (signers : list ExternalSigner.t) (updateMessage : string)
         (signerId : uuid) (status : Outcome.t) (db : DB.t),
    Faults.external_signers_update f = None ->
    Faults.status_updates_insert f = None ->
    exists event : StatusUpdate.t,
      DB.status_updates
        (fst (updateSignerStatus env f id user signers updateMessage signerId
                status db))
      = DB.status_updates db ++ [event]
      /\ StatusUpdate.document_id event = id
      /\ StatusUpdate.updated_by event = User.id user
      /\ StatusUpdate.update_type event
         = match status with
           | Outcome.signed => UpdateType.signature_received
           | Outcome.rejected => UpdateType.rejected
           end
      /\ (updateMessage <> "" -> StatusUpdate.message event = updateMessage)
      /\ (updateMessage = "" ->
          StatusUpdate.message event = "Signature " ^^ Outcome.to_string status).
Proof.
  intros env f id user signers updateMessage signerId status db Hu Hi.
  assert (Hmsg : forall m : string,
             (updateMessage <> "" -> or_else updateMessage m = updateMessage)
             /\ (updateMessage = "" -> or_else updateMessage m = m)).
  { intros m. unfold or_else. split.
    - intros Hne. destruct (String.eqb updateMessage "") eqn:E; [|reflexivity].
      apply String.eqb_eq in E. contradiction.
    - intros ->. reflexivity. }
  unfold updateSignerStatus. step_handler. rewrite Hu, Hi.
  cbn [fst snd].
  destruct (forallb _ _); [|destruct (existsb _ _)]; cbn -[update_where or_else];
    try (destruct (Faults.documents_update f); cbn -[update_where or_else]);
    (eexists; split; [reflexivity|]; cbn -[or_else]; repeat split; apply Hmsg).
Qed.

Lemma updateSignerStatus_appends_status_update_witness :
  exists event : StatusUpdate.t,
    DB.status_updates
      (fst (updateSignerStatus sample_env Faults.none 0 member
              (fetch_signers 0 small_in_progress) "" 2 Outcome.signed
              small_in_progress))
    = DB.status_updates small_in_progress ++ [event]
    /\ StatusUpdate.update_type event = UpdateType.signature_received
    /\ StatusUpdate.message event = "Signature signed".
Proof.
  destruct (updateSignerStatus_appends_status_update sample_env Faults.none 0
              member (fetch_signers 0 small_in_progress) "" 2 Outcome.signed
              small_in_progress eq_refl eq_refl)
    as (event & H1 & _ & _ & H2 & _ & H3).
  exists event. split; [exact H1|]. split; [exact H2|]. now apply H3.
Defined.

(** ** Empty row sets *)

(** X17.  [every] on an empty array is true: a decision recorded for a
    document that has no approver row at all (all requests executed) sets the
    document to [in_progress]. *)
Theorem handleApproval_without_approver_rows :
  forall (env : Env.t) (f : Faults.t) (user : User.t)
         (documentId approverId : uuid) (status : Decision.t)
         (comments : option string) (db : DB.t),
    Faults.approvers_update f = None ->
    Faults.approvers_select f = None ->
    Faults.documents_update f = None ->
    approver_rows db documentId = [] ->
    document_status db documentId <> None ->
    document_status
      (fst (handleApproval env f user documentId approverId status comments db))
      documentId
    = Some DocumentStatus.in_progress.
Proof.
  intros env f user documentId approverId status comments db Hu Hs Hd Hrows Hdoc.
  rewrite handleApproval_document_status by assumption.
  unfold approver_statuses. rewrite handleApproval_approver_rows by exact Hu.
  rewrite Hrows, Nat.eqb_refl. cbn.
  destruct (document_status db documentId); [reflexivity|contradiction].
Qed.

Lemma handleApproval_without_approver_rows_witness :
  document_status
    (fst (handleApproval sample_env Faults.none admin_one 0 1 Decision.rejected
            None
            (DB.with_approvers [] small_submitted))) 0
  = Some DocumentStatus.in_progress.
Proof.
  apply (handleApproval_without_approver_rows sample_env Faults.none admin_one
           0 1 Decision.rejected None (DB.with_approvers [] small_submitted));
    try reflexivity.
  discriminate.
Defined.



(** ** The edit button of a signer *)

(** X19.  After an outcome was recorded for a signer (the signer update
    being executed), a reloaded details page shows no edit button for that
    signer to anybody: the outcome cannot be changed from the page. *)
Theorem recorded_signer_is_no_longer_editable :
  forall (env : Env.t) (f : Faults.t) (id : uuid) (user : User.t)
         (signers : list ExternalSigner.t) (updateMessage : string)
         (signerId : uuid) (status : Outcome.t) (db : DB.t),
    Faults.external_signers_update f = None ->
    forall (viewer : User.t) (document : Document.t) (row : ExternalSigner.t),
      In row (fetch_signers id
                (fst (updateSignerStatus env f id user signers updateMessage
                        signerId status db))) ->
      ExternalSigner.id row = signerId ->
      edit_offered viewer document row = false.
Proof.
  intros env f id user signers updateMessage signerId status db Hu viewer
    document row Hin Hid.
  unfold fetch_signers in Hin. apply filter_In in Hin. destruct Hin as [Hin _].
  rewrite updateSignerStatus_external_signers in Hin by exact Hu.
  unfold update_where in Hin. apply in_map_iff in Hin.
  destruct Hin as (r & Hr & _).
  unfold edit_offered.
  destruct (Nat.eqb (ExternalSigner.id r) signerId) eqn:E.
  - subst row. cbn. destruct status; apply andb_false_r.
  - subst row. apply Nat.eqb_neq in E. contradiction.
Qed.

Lemma recorded_signer_is_no_longer_editable_witness :
  Forall (fun row => edit_offered member
                       (Document.mk 0 "Budget" "Annual budget of the club" ""
                          100 DocumentStatus.in_progress) row = false)
    (fetch_signers 0
       (fst (updateSignerStatus sample_env Faults.none 0 member
               (fetch_signers 0 small_in_progress) "" 2 Outcome.signed
               small_in_progress))).
Proof.
  apply Forall_forall. intros row Hin.
  apply (recorded_signer_is_no_longer_editable sample_env Faults.none 0 member
           (fetch_signers 0 small_in_progress) "" 2 Outcome.signed
           small_in_progress eq_refl member _ row Hin).
  cbn in Hin. destruct Hin as [<-|[]]. reflexivity.
Defined.

(** ** What the creation form accepts *)

Lemma string_min_nil (n : nat) (message : string) (path : list PathSegment)
  (s : string) :
  string_min n message path s = [] <-> n <= js_length s.
Proof.
  unfold string_min. destruct (Nat.ltb (js_length s) n) eqn:E.
  - apply Nat.ltb_lt in E. split; [discriminate|lia].
  - apply Nat.ltb_ge in E. split; [intros _; exact E|reflexivity].
Qed.

Lemma array_min_one_nil {A : Type} (message : string) (path : list PathSegment)
  (l : list A) :
  array_min 1 message path l = [] <-> l <> [].
Proof.
  unfold array_min. destruct l as [|x l]; cbn.
  - split; [discriminate|intros H; now elim H].
  - split; [discriminate|reflexivity].
Qed.

Lemma signer_issues_nil (signers : list SignerEntry.t) :
  forall k,
    List.concat
      (mapi_from
         (fun signer i =>
            string_min 2 "Name is required"
              [key "external_signers"; index i; key "name"]
              (SignerEntry.name signer)
            ++ string_min 2 "Designation is required"
                 [key "external_signers"; index i; key "designation"]
                 (SignerEntry.designation signer))
         k signers) = []
    <-> Forall (fun signer =>
                  2 <= js_length (SignerEntry.name signer)
                  /\ 2 <= js_length (SignerEntry.designation signer))
               signers.
Proof.
  induction signers as [|s signers IH]; intros k; cbn [mapi_from List.concat].
  - split; [constructor|reflexivity].
  - split.
    + intros H. apply app_eq_nil in H. destruct H as [Hs Hrest].
      apply app_eq_nil in Hs. destruct Hs as [Hn Hd].
      apply string_min_nil in Hn, Hd. apply IH in Hrest.
      constructor; [split|]; assumption.
    + intros H. inversion H as [|? ? [Hn Hd] Hrest]; subst.
      apply (string_min_nil 2 "Name is required"
               [key "external_signers"; index k; key "name"]) in Hn.
      apply (string_min_nil 2 "Designation is required"
               [key "external_signers"; index k; key "designation"]) in Hd.
      rewrite Hn, Hd. cbn [app]. now apply IH.
Qed.

(** X20.  The creation form is accepted (no validation issue, [onSubmit]
    runs) exactly when the title has a JavaScript [.length] (UTF-16 code
    units) of at least 3 and the description of at least 10, at least one
    approver is selected, there is at least one external signer, and every
    signer has a name and a designation of [.length] at least 2. *)
Theorem createDocumentSchema_accepts_exactly :
  forall (data : CreateDocumentFormData.t),
    createDocumentSchema data = []
    <-> 3 <= js_length (CreateDocumentFormData.title data)
        /\ 10 <= js_length (CreateDocumentFormData.description data)
        /\ CreateDocumentFormData.approvers data <> []
        /\ CreateDocumentFormData.external_signers data <> []
        /\ Forall (fun signer =>
                     2 <= js_length (SignerEntry.name signer)
                     /\ 2 <= js_length (SignerEntry.designation signer))
                  (CreateDocumentFormData.external_signers data).
Proof.
  intros data. unfold createDocumentSchema, mapi. split.
  - intros H.
    apply app_eq_nil in H. destruct H as [H1 H].
    apply app_eq_nil in H. destruct H as [H2 H].
    apply app_eq_nil in H. destruct H as [H3 H].
    apply app_eq_nil in H. destruct H as [H4 H5].
    apply string_min_nil in H1, H2. apply array_min_one_nil in H3, H4.
    apply signer_issues_nil in H5. repeat split; assumption.
  - intros (H1 & H2 & H3 & H4 & H5).
    apply (string_min_nil 3 "Title must be at least 3 characters" [key "title"])
      in H1.
    apply (string_min_nil 10 "Description must be at least 10 characters"
             [key "description"]) in H2.
    apply (array_min_one_nil "At least one approver is required"
             [key "approvers"]) in H3.
    apply (array_min_one_nil "At least one external signer is required"
             [key "external_signers"]) in H4.
    apply (signer_issues_nil _ 0) in H5.
    rewrite H1, H2, H3, H4, H5. reflexivity.
Qed.

Lemma createDocumentSchema_accepts_exactly_witness :
  createDocumentSchema large_form = []
  /\ js_length two_character_title = 2
  /\ createDocumentSchema two_character_form <> [].
Proof.
  split; [|split].
  - apply (createDocumentSchema_accepts_exactly large_form).
    cbn. repeat split; try lia; try discriminate.
    repeat constructor; cbn; lia.
  - reflexivity.
  - intros H. apply (createDocumentSchema_accepts_exactly two_character_form) in H.
    destruct H as [H _]. cbn in H. lia.
Defined.

(** ** Order of the signer outcomes on one page *)










(** ** From submission to completion *)












(** ** A rejection by somebody else stays *)

Lemma document_status_update_where (db : DB.t) (documentId : uuid)
  (s : DocumentStatus.t) (docs : list Document.t) :
  option_map Document.status
    (find (fun d => Nat.eqb (Document.id d) documentId)
       (update_where (fun d => Nat.eqb (Document.id d) documentId)
          (Document.with_status s) docs))
  = option_map (fun _ => s)
      (option_map Document.status
         (find (fun d => Nat.eqb (Document.id d) documentId) docs)).
Proof.
  rewrite find_update_where_documents, Nat.eqb_refl.
  destruct (find _ docs); reflexivity.
Qed.

(** X23.  Whatever the backend answers: when a document is [rejected] and
    one of its approver rows other than the targeted one is rejected, a
    further decision on it, approving or rejecting, leaves it [rejected]. *)
Theorem rejection_survives_other_decisions :
  forall (env : Env.t) (f : Faults.t) (user : User.t)
         (documentId approverId : uuid) (status : Decision.t)
         (comments : option string) (db : DB.t) (other : Approver.t),
    document_status db documentId = Some DocumentStatus.rejected ->
    In other (approver_rows db documentId) ->
    Approver.id other <> approverId ->
    Approver.status other = ApprovalStatus.rejected ->
    document_status
      (fst (handleApproval env f user documentId approverId status comments db))
      documentId
    = Some DocumentStatus.rejected.
Proof.
  intros env f user documentId approverId status comments db other Hdoc Hin Hid Hst.
  assert (Hany : existsb
                   (fun a => ApprovalStatus.eqb a ApprovalStatus.rejected)
                   (map Approver.status
                      (filter (fun a => Nat.eqb (Approver.document_id a) documentId)
                         (update_where (fun a => Nat.eqb (Approver.id a) approverId)
                            (approver_patch env status comments) (DB.approvers db))))
                 = true).
  { rewrite filter_update_where by reflexivity.
    apply existsb_exists. exists ApprovalStatus.rejected. split; [|reflexivity].
    apply in_map_iff. exists other. split; [exact Hst|].
    unfold update_where. apply in_map_iff. exists other.
    apply Nat.eqb_neq in Hid. rewrite Hid. split; [reflexivity|exact Hin]. }
  unfold document_status in *. unfold handleApproval. step_handler.
  destruct (Faults.approvers_update f); cbn -[update_where]; [exact Hdoc|].
  destruct (Faults.approvers_select f); cbn -[update_where]; [exact Hdoc|].
  rewrite Hany. cbn -[update_where].
  destruct (Faults.documents_update f); cbn -[update_where]; [exact Hdoc|].
  destruct (Faults.status_updates_insert f); cbn -[update_where];
    rewrite (document_status_update_where db), Hdoc; reflexivity.
Qed.

Lemma rejection_survives_other_decisions_witness :
  document_status
    (fst (handleApproval sample_env Faults.none admin_one 0 1 Decision.approved
            None
            (fst (handleApproval sample_env Faults.none admin_two 0 2
                    Decision.rejected None large_submitted)))) 0
  = Some DocumentStatus.rejected.
Proof.
  apply (rejection_survives_other_decisions sample_env Faults.none admin_one 0 1
           Decision.approved None
           (fst (handleApproval sample_env Faults.none admin_two 0 2
                   Decision.rejected None large_submitted))
           (Approver.mk 2 0 102 2 ApprovalStatus.rejected None None)).
  - reflexivity.
  - cbn. right. now left.
  - cbn. discriminate.
  - reflexivity.
Defined.

(** X24.  Whatever the backend answers: when a document is [rejected] and
    the details page holds a rejected signer row other than the one acted
    on, recording a further outcome, signature or rejection, leaves the
    document [rejected]. *)
Theorem rejection_survives_other_outcomes :
  forall (env : Env.t) (f : Faults.t) (id : uuid) (user : User.t)
         (signers : list ExternalSigner.t) (updateMessage : string)
         (signerId : uuid) (status : Outcome.t) (db : DB.t)
         (other : ExternalSigner.t),
    document_status db id = Some DocumentStatus.rejected ->
    In other signers ->
    ExternalSigner.id other <> signerId ->
    ExternalSigner.status other = SigningStatus.rejected ->
    document_status
      (fst (updateSignerStatus env f id user signers updateMessage signerId
              status db)) id
    = Some DocumentStatus.rejected.
Proof.
  intros env f id user signers updateMessage signerId status db other
    Hdoc Hin Hid Hst.
  assert (Hother : In other
                     (map (fun s =>
                             if Nat.eqb (ExternalSigner.id s) signerId
                             then ExternalSigner.with_status
                                    (Outcome.to_status status) s
                             else s) signers)).
  { apply in_map_iff. exists other. apply Nat.eqb_neq in Hid. rewrite Hid.
    split; [reflexivity|exact Hin]. }
  assert (Hall : forallb
                   (fun s => SigningStatus.eqb (ExternalSigner.status s)
                               SigningStatus.signed)
                   (map (fun s =>
                           if Nat.eqb (ExternalSigner.id s) signerId
                           then ExternalSigner.with_status
                                  (Outcome.to_status status) s
                           else s) signers) = false).
  { apply not_true_is_false. intros Habs. rewrite forallb_forall in Habs.
    specialize (Habs other Hother). rewrite Hst in Habs. discriminate. }
  assert (Hany : existsb
                   (fun s => SigningStatus.eqb (ExternalSigner.status s)
                               SigningStatus.rejected)
                   (map (fun s =>
                           if Nat.eqb (ExternalSigner.id s) signerId
                           then ExternalSigner.with_status
                                  (Outcome.to_status status) s
                           else s) signers) = true).
  { apply existsb_exists. exists other. split; [exact Hother|].
    now rewrite Hst. }
  unfold document_status in *. unfold updateSignerStatus. step_handler.
  destruct (Faults.external_signers_update f); cbn -[update_where]; [exact Hdoc|].
  rewrite Hall, Hany.
  destruct (Faults.status_updates_insert f); cbn -[update_where];
    (destruct (Faults.documents_update f); cbn -[update_where];
     [exact Hdoc|rewrite (document_status_update_where db), Hdoc; reflexivity]).
Qed.

Lemma rejection_survives_other_outcomes_witness :
  document_status
    (fst (updateSignerStatus sample_env Faults.none 0 member
            (fetch_signers 0
               (run_outcomes sample_env 0
                  [SignerAction.mk admin_one 4 Outcome.rejected ""]
                  large_in_progress))
            "" 3 Outcome.signed
            (run_outcomes sample_env 0
               [SignerAction.mk admin_one 4 Outcome.rejected ""]
               large_in_progress))) 0
  = Some DocumentStatus.rejected.
Proof.
  apply (rejection_survives_other_outcomes sample_env Faults.none 0 member
           _ "" 3 Outcome.signed _
           (ExternalSigner.mk 4 0 "Registrar" "University registrar" 2
              SigningStatus.rejected None (Some ""))).
  - reflexivity.
  - cbn. right. now left.
  - cbn. discriminate.
  - reflexivity.
Defined.
